(** * The expenses request handlers, embedded and verified

    The repository holds one pattern three times: an in-memory array of
    expense records behind an HTTP handler with a list (GET) and a create
    (POST) operation.

    - [Api]         src/api/expenses.js: seeded store, body read from the
                    request stream, two required fields, defaults for
                    [category] and [date], newest-first listing;
    - [Timestamped] the [module.exports] handler: empty store, truthiness
                    check on [description] and [amount], id taken from the
                    clock;
    - [Strict]      the handler with four required fields and no defaults.

    The handlers are written over a small model of the JavaScript values
    and built-ins they use ([JS]).  State is passed explicitly: a handler
    maps the array [expenses] and a request to the new array and what was
    sent. *)

From Stdlib Require Import ZArith NArith List Finite String Ascii Bool Lia.
From Stdlib Require Import Floats.SpecFloat.
From Stdlib Require Import Numbers.DecimalString Numbers.DecimalZ.
Import ListNotations.

Local Open Scope string_scope.
Local Open Scope Z_scope.

(** ** JavaScript values and built-ins *)

Module JS.

(** *** Numbers: IEEE 754 binary64 *)

Definition number : Type := spec_float.

Definition prec : Z := 53.
Definition emax : Z := 1024.

Definition NaN : number := S754_nan.
Definition Infinity : number := S754_infinity false.
Definition zero : number := S754_zero false.

(** [isNaN(x)] on an argument that is already a number. *)
Definition isNaN (x : number) : bool :=
  match x with
  | S754_nan => true
  | _ => false
  end.


(** [x <= y] and [x < y]; both are false as soon as one side is NaN. *)
Definition le (x y : number) : bool := SFleb x y.

(** The binary64 nearest to [(-1)^neg * m * 10^e], ties to even: the value
    of a decimal literal. *)
Definition of_decimal (neg : bool) (m : N) (e : Z) : number :=
  match m with
  | N0 => S754_zero neg
  | Npos p =>
      match e with
      | Zneg k =>
          SFdiv prec emax (S754_finite neg p 0)
                (S754_finite false (Pos.pow 10 k) 0)
      | _ => binary_round prec emax neg (p * Z.to_pos (10 ^ e)) 0
      end
  end.

Definition of_Z (n : Z) : number := of_decimal (n <? 0) (Z.abs_N n) 0.

(** *** Strings

    Strings are byte strings; text outside ASCII is taken in UTF-8. *)

Definition code (c : ascii) : N := N_of_ascii c.

Definition is_digit (c : ascii) : bool :=
  ((48 <=? code c) && (code c <=? 57))%N.

Definition digit_value (c : ascii) : N := (code c - 48)%N.

(** WhiteSpace and LineTerminator code points of one, two and three bytes:
    TAB LF VT FF CR SP; NBSP; U+1680, U+2000..U+200A, U+2028, U+2029,
    U+202F, U+205F, U+3000, U+FEFF. *)
Definition ws1 (c : ascii) : bool :=
  ((9 <=? code c) && (code c <=? 13) || (code c =? 32))%N.

Definition ws2 (c1 c2 : ascii) : bool :=
  ((code c1 =? 194) && (code c2 =? 160))%N.

Definition ws3 (c1 c2 c3 : ascii) : bool :=
  let a := code c1 in
  let b := code c2 in
  let c := code c3 in
  ((a =? 225) && (b =? 154) && (c =? 128)
   || (a =? 226) && (b =? 128)
      && ((128 <=? c) && (c <=? 138) || (c =? 168) || (c =? 169) || (c =? 175))
   || (a =? 226) && (b =? 129) && (c =? 159)
   || (a =? 227) && (b =? 128) && (c =? 128)
   || (a =? 239) && (b =? 187) && (c =? 191))%N.

(** Leading white space removed, as [parseFloat] does before it reads. *)
Fixpoint trim_start (s : string) : string :=
  match s with
  | String c1 r1 =>
      if ws1 c1 then trim_start r1
      else
        match r1 with
        | String c2 r2 =>
            if ws2 c1 c2 then trim_start r2
            else
              match r2 with
              | String c3 r3 => if ws3 c1 c2 c3 then trim_start r3 else s
              | EmptyString => s
              end
        | EmptyString => s
        end
  | EmptyString => s
  end.

(** The longest run of decimal digits at the head of [s]: its value on top
    of [acc], how many there were on top of [cnt], and what follows. *)
Fixpoint digits (s : string) (acc : N) (cnt : Z) : N * Z * string :=
  match s with
  | String c r =>
      if is_digit c then digits r (acc * 10 + digit_value c)%N (cnt + 1)
      else (acc, cnt, s)
  | EmptyString => (acc, cnt, s)
  end.

(** ExponentPart, when one can be read at the head of [s]; 0 otherwise. *)
Definition exponent_part (s : string) : Z :=
  match s with
  | String c r =>
      if ((code c =? 101) || (code c =? 69))%N then
        let '(neg, r') :=
          match r with
          | String "+" t => (false, t)
          | String "-" t => (true, t)
          | _ => (false, r)
          end in
        let '(x, n, _) := digits r' 0%N 0 in
        if n =? 0 then 0 else if neg then - Z.of_N x else Z.of_N x
      else 0
  | EmptyString => 0
  end.

Inductive literal : Type :=
| LitInfinity
| LitDecimal (m : N) (e : Z).

(** The longest prefix of [s] that is a StrUnsignedDecimalLiteral. *)
Definition unsigned_literal (s : string) : option literal :=
  if prefix "Infinity" s then Some LitInfinity
  else
    let '(ip, ni, r1) := digits s 0%N 0 in
    let '(m, nf, r2) :=
      match r1 with
      | String "." r => digits r ip 0
      | _ => (ip, 0, r1)
      end in
    if ni + nf =? 0 then None
    else Some (LitDecimal m (exponent_part r2 - nf)).

(** [parseFloat(s)] for a string [s]. *)
Definition parseFloat_string (s : string) : number :=
  let t := trim_start s in
  let '(neg, u) :=
    match t with
    | String "+" r => (false, r)
    | String "-" r => (true, r)
    | _ => (false, t)
    end in
  match unsigned_literal u with
  | None => NaN
  | Some LitInfinity => S754_infinity neg
  | Some (LitDecimal m e) => of_decimal neg m e
  end.

(** [n.toString()] for an integer [n] below 10^21 in magnitude, which a
    clock reading in milliseconds is. *)
Definition int_to_string (n : Z) : string :=
  NilEmpty.string_of_int (Z.to_int n).

Definition decimal (n : Z) : string :=
  NilEmpty.string_of_uint (N.to_uint (Z.to_N n)).

(** [s.padStart(w, "0")]. *)
Definition pad_zeros (w : nat) (s : string) : string :=
  string_of_list_ascii (repeat "0"%char (w - String.length s)) ++ s.

(** [s.split(c)[0]]: what stands before the first [c]. *)
Fixpoint before (c : ascii) (s : string) : string :=
  match s with
  | String a r => if Ascii.eqb a c then EmptyString else String a (before c r)
  | EmptyString => EmptyString
  end.

(** *** Dates

    A date is its time value: milliseconds since the epoch, UTC. *)

Definition msPerDay : Z := 86400000.

(** Year, month and day of the day numbered [z] from 1970-01-01, in the
    proleptic Gregorian calendar. *)
Definition civil_from_days (z : Z) : Z * Z * Z :=
  let z := z + 719468 in
  let era := z / 146097 in
  let doe := z - era * 146097 in
  let yoe := (doe - doe / 1460 + doe / 36524 - doe / 146096) / 365 in
  let doy := doe - (365 * yoe + yoe / 4 - yoe / 100) in
  let mp := (5 * doy + 2) / 153 in
  let d := doy - (153 * mp + 2) / 5 + 1 in
  let m := if mp <? 10 then mp + 3 else mp - 9 in
  let y := yoe + era * 400 + (if m <=? 2 then 1 else 0) in
  (y, m, d).

(** [new Date(t).toISOString()]: [YYYY-MM-DDTHH:mm:ss.sssZ], the year with
    a sign and six digits outside 0..9999. *)
Definition toISOString (t : Z) : string :=
  let '(y, m, d) := civil_from_days (t / msPerDay) in
  let r := t mod msPerDay in
  let year :=
    if (0 <=? y) && (y <=? 9999) then pad_zeros 4 (decimal y)
    else (if y <? 0 then "-" else "+") ++ pad_zeros 6 (decimal (Z.abs y)) in
  year ++ "-" ++ pad_zeros 2 (decimal m) ++ "-" ++ pad_zeros 2 (decimal d)
    ++ "T" ++ pad_zeros 2 (decimal (r / 3600000))
    ++ ":" ++ pad_zeros 2 (decimal (r / 60000 mod 60))
    ++ ":" ++ pad_zeros 2 (decimal (r / 1000 mod 60))
    ++ "." ++ pad_zeros 3 (decimal (r mod 1000)) ++ "Z".

(** [new Date().toISOString().split('T')[0]] when the clock reads [now]. *)
Definition today (now : Z) : string := before "T" (toISOString now).

(** *** Values

    What a request body can hold: the results of [JSON.parse], and
    [undefined] for a body that was never set.  An object is its own
    properties in order, each key once. *)

#[local] Set Warnings "-register-all".

Inductive value : Type :=
| VUndefined
| VNull
| VBool (b : bool)
| VNumber (x : number)
| VString (s : string)
| VArray (elems : list value)
| VObject (props : list (string * value)).

(** ToBoolean. *)
Definition truthy (v : value) : bool :=
  match v with
  | VUndefined | VNull => false
  | VBool b => b
  | VNumber (S754_zero _) | VNumber S754_nan => false
  | VNumber _ => true
  | VString EmptyString => false
  | VString _ => true
  | VArray _ | VObject _ => true
  end.

(** [a || b]. *)
Definition or (a b : value) : value := if truthy a then a else b.

Fixpoint lookup (k : string) (props : list (string * value)) : option value :=
  match props with
  | [] => None
  | (k', v) :: rest => if String.eqb k k' then Some v else lookup k rest
  end.

(** [parseFloat(v)] is [parseFloat] of [String(v)].  A number prints to a
    literal that reads back as itself, the sign of zero apart; an array
    prints its elements with commas between them, so only the first one is
    read; [undefined], [null], booleans and plain objects print to words
    that start no literal. *)
Fixpoint parseFloat (v : value) : number :=
  match v with
  | VNumber (S754_zero _) => zero
  | VNumber x => x
  | VString s => parseFloat_string s
  | VArray (e :: _) => parseFloat e
  | _ => NaN
  end.

(** *** Completions: a value, or a thrown error *)

Inductive error : Type :=
| TypeError (message : string).

Inductive completion (A : Type) : Type :=
| Normal (a : A)
| Throw (e : error).
Arguments Normal {A} a.
Arguments Throw {A} e.

Definition bind {A B : Type} (c : completion A) (k : A -> completion B)
  : completion B :=
  match c with
  | Normal a => k a
  | Throw e => Throw e
  end.

(** Whether an object has a property [k] of its own. *)
Definition own (k : string) (props : list (string * value)) : bool :=
  match lookup k props with
  | Some _ => true
  | None => false
  end.

(** The value an object holds under [k]; [undefined] when it has none. *)
Definition prop (k : string) (props : list (string * value)) : value :=
  match lookup k props with
  | Some x => x
  | None => VUndefined
  end.

(** [k in v], for the keys the handlers ask about ([amount],
    [description], [category], [date]): none of them is a property of an
    array or of [Object.prototype], and a right operand that is not an
    object throws. *)
Definition has_property (k : string) (v : value) : completion bool :=
  match v with
  | VObject props => Normal (own k props)
  | VArray _ => Normal false
  | _ => Throw (TypeError "right-hand side of 'in' is not an object")
  end.

(** [v.k] and the destructuring [{k} = v], for the same keys: they throw
    on [undefined] and [null], find nothing on other primitives and on
    arrays. *)
Definition get (v : value) (k : string) : completion value :=
  match v with
  | VUndefined | VNull =>
      Throw (TypeError "cannot read properties of undefined or null")
  | VObject props => Normal (prop k props)
  | _ => Normal VUndefined
  end.

(** [l.filter(p)] with a callback that may throw. *)
Fixpoint filter {A : Type} (p : A -> completion bool) (l : list A)
  : completion (list A) :=
  match l with
  | [] => Normal []
  | x :: rest =>
      bind (p x) (fun keep =>
      bind (filter p rest) (fun rest' =>
      Normal (if keep then x :: rest' else rest')))
  end.

(** [Math.max] of a list of integers that is not empty. *)
Definition max_of (l : list Z) : Z :=
  match l with
  | [] => 0
  | x :: rest => fold_left Z.max rest x
  end.

(** [m + 1] on an integer [0 <= m <= 2^53] held in a binary64: exact
    below 2^53; at 2^53 the sum is halfway between two numbers and rounds
    back to 2^53. *)
Definition succ (m : Z) : Z := if m <? 2 ^ 53 then m + 1 else m.

End JS.

(** ** Handlers as state transformers

    A handler runs on the module-level array and either completes or
    throws; the array it leaves behind is kept in both cases, so that a
    [catch] sees what was done before the throw. *)

Module Eff.

Definition M (S A : Type) : Type := S -> S * JS.completion A.

Definition ret {S A : Type} (a : A) : M S A := fun s => (s, JS.Normal a).

Definition bind {S A B : Type} (m : M S A) (k : A -> M S B) : M S B :=
  fun s =>
    match m s with
    | (s', JS.Normal a) => k a s'
    | (s', JS.Throw e) => (s', JS.Throw e)
    end.

Definition lift {S A : Type} (c : JS.completion A) : M S A := fun s => (s, c).

(** The array as it stands. *)
Definition read {S : Type} : M S S := fun s => (s, JS.Normal s).

(** [expenses.push(r)]. *)
Definition push {R : Type} (r : R) : M (list R) unit :=
  fun s => ((s ++ [r])%list, JS.Normal tt).

End Eff.

Notation "x <- m ;; k" := (Eff.bind m (fun x => k))
  (at level 100, m at next level, right associativity).
Notation "m ;;; k" := (Eff.bind m (fun _ => k))
  (at level 100, right associativity).

(** ** Records and responses of the two seeded handlers

    [id] is a number the store itself assigns (1, 2, then maximum plus
    one): an integer, kept as [Z].  The other fields hold what the request
    supplied.  Response headers do not bear on status, body or array and
    are left out. *)

Module Seeded.

Record expense : Type := {
  id : Z;
  amount : JS.number;
  description : JS.value;
  category : JS.value;
  date : JS.value
}.

(** The array both files start from. *)
Definition expenses : list expense :=
  [ {| id := 1;
       amount := JS.of_decimal false 5000 (-2);
       description := JS.VString "Groceries for the week";
       category := JS.VString "Food";
       date := JS.VString "2025-11-28" |};
    {| id := 2;
       amount := JS.of_decimal false 1575 (-2);
       description := JS.VString "Monthly streaming subscription";
       category := JS.VString "Entertainment";
       date := JS.VString "2025-12-01" |} ].

(** The bodies [sendResponse] is called with. *)
Inductive payload : Type :=
| PNull
| PList (data : list expense) (total : nat)
| PMissing (error : string) (missing : list string)
| PError (error : string)
| PCreated (message : string) (expense : expense).

Record response : Type := {
  statusCode : Z;
  body : payload
}.

Definition sendResponse (statusCode : Z) (body : payload) : response :=
  {| statusCode := statusCode; body := body |}.

(** The object literals behind a record and a body, as [JSON.stringify]
    receives them. *)
Definition expense_object (e : expense) : JS.value :=
  JS.VObject [("id", JS.VNumber (JS.of_Z (id e)));
              ("amount", JS.VNumber (amount e));
              ("description", description e);
              ("category", category e);
              ("date", date e)].

Definition payload_object (p : payload) : JS.value :=
  match p with
  | PNull => JS.VNull
  | PList data total =>
      JS.VObject [("data", JS.VArray (map expense_object data));
                  ("total", JS.VNumber (JS.of_Z (Z.of_nat total)))]
  | PMissing error missing =>
      JS.VObject [("error", JS.VString error);
                  ("missing", JS.VArray (map JS.VString missing))]
  | PError error => JS.VObject [("error", JS.VString error)]
  | PCreated message expense =>
      JS.VObject [("message", JS.VString message);
                  ("expense", expense_object expense)]
  end.

(** [Math.max(...expenses.map(e => e.id)) + 1], or 1 on the empty array. *)
Definition newId (expenses : list expense) : Z :=
  if (0 <? List.length expenses)%nat
  then JS.succ (JS.max_of (map id expenses))
  else 1.


(** [requiredFields.filter(field => !(field in newExpense))]. *)
Definition missingFields (requiredFields : list string) (newExpense : JS.value)
  : JS.completion (list string) :=
  JS.filter
    (fun field => JS.bind (JS.has_property field newExpense)
                          (fun present => JS.Normal (negb present)))
    requiredFields.

End Seeded.

(** ** src/api/expenses.js *)

Module Api.
Import JS Seeded.

(** A request: its method, the chunks its stream delivers, and the clock
    reading [now] (milliseconds) while it is served. *)
Record request : Type := {
  method : string;
  chunks : list string;
  now : Z
}.

Section WithJSON.

(** [JSON.parse]: the value, or [None] where it throws. *)
Variable JSON_parse : string -> option value.

Definition parseBody (req : request) : value :=
  let body := fold_left (fun body chunk => body ++ chunk) (chunks req)
                        EmptyString in
  match JSON_parse body with
  | Some v => v
  | None => VObject []
  end.

Definition handleGET (req : request) : Eff.M (list expense) response :=
  expenses <- Eff.read ;;
  let sortedExpenses := rev expenses in
  Eff.ret (sendResponse 200 (PList sortedExpenses (List.length expenses))).

Definition requiredFields : list string := ["amount"; "description"].

Definition handlePOST (req : request) (body : value)
  : Eff.M (list expense) response :=
  let newExpense := body in
  missingFields <- Eff.lift (missingFields requiredFields newExpense) ;;
  if (0 <? List.length missingFields)%nat then
    Eff.ret (sendResponse 400
               (PMissing "Missing required fields" missingFields))
  else
    given_category <- Eff.lift (get newExpense "category") ;;
    let category := or given_category (VString "Uncategorized") in
    given_date <- Eff.lift (get newExpense "date") ;;
    let date := or given_date (VString (today (now req))) in
    given_amount <- Eff.lift (get newExpense "amount") ;;
    let amount := parseFloat given_amount in
    description <- Eff.lift (get newExpense "description") ;;
    if isNaN amount || le amount zero then
      Eff.ret (sendResponse 400
                 (PError "Invalid amount. Must be a positive number."))
    else
      expenses <- Eff.read ;;
      let expenseRecord :=
        {| id := newId expenses;
           amount := amount;
           description := description;
           category := category;
           date := date |} in
      Eff.push expenseRecord ;;;
      Eff.ret (sendResponse 201
                 (PCreated "Expense added successfully" expenseRecord)).

(** The exported handler: what it leaves in the array and what it sent. *)
Definition handler (req : request) (expenses : list expense)
  : list expense * response :=
  if (method req =? "OPTIONS")%string then (expenses, sendResponse 204 PNull)
  else
    let attempt :=
      if (method req =? "GET")%string then handleGET req
      else if (method req =? "POST")%string then handlePOST req (parseBody req)
      else Eff.ret (sendResponse 405
                      (PError ("Method " ++ method req ++ " Not Allowed"))) in
    match attempt expenses with
    | (expenses', Normal sent) => (expenses', sent)
    | (expenses', Throw _) =>
        (expenses', sendResponse 500 (PError "Internal Server Error"))
    end.

(** Requests served one after the other, each to completion. *)
Definition serve (reqs : list request) (expenses : list expense)
  : list expense :=
  fold_left (fun expenses req => fst (handler req expenses)) reqs expenses.

End WithJSON.

End Api.

(** ** The handler with four required fields *)

Module Strict.
Import JS Seeded.

(** A request: its method, [req.body] as the platform parsed it, and the
    clock reading. *)
Record request : Type := {
  method : string;
  body : value;
  now : Z
}.

Definition handleGET (req : request) : Eff.M (list expense) response :=
  expenses <- Eff.read ;;
  Eff.ret (sendResponse 200 (PList expenses (List.length expenses))).

Definition requiredFields : list string :=
  ["amount"; "description"; "category"; "date"].

Definition handlePOST (req : request) : Eff.M (list expense) response :=
  let newExpense := body req in
  missingFields <- Eff.lift (missingFields requiredFields newExpense) ;;
  if (0 <? List.length missingFields)%nat then
    Eff.ret (sendResponse 400
               (PMissing "Missing required fields" missingFields))
  else
    given_amount <- Eff.lift (get newExpense "amount") ;;
    let amount := parseFloat given_amount in
    description <- Eff.lift (get newExpense "description") ;;
    category <- Eff.lift (get newExpense "category") ;;
    date <- Eff.lift (get newExpense "date") ;;
    if isNaN amount || le amount zero then
      Eff.ret (sendResponse 400
                 (PError "Invalid amount. Must be a positive number."))
    else
      expenses <- Eff.read ;;
      let expenseRecord :=
        {| id := newId expenses;
           amount := amount;
           description := description;
           category := category;
           date := date |} in
      Eff.push expenseRecord ;;;
      Eff.ret (sendResponse 201
                 (PCreated "Expense added successfully" expenseRecord)).

Definition handler (req : request) (expenses : list expense)
  : list expense * response :=
  let attempt :=
    if (method req =? "GET")%string then handleGET req
    else if (method req =? "POST")%string then handlePOST req
    else Eff.ret (sendResponse 405
                    (PError ("Method " ++ method req ++ " Not Allowed"))) in
  match attempt expenses with
  | (expenses', Normal sent) => (expenses', sent)
  | (expenses', Throw _) =>
      (expenses', sendResponse 500 (PError "Internal Server Error"))
  end.

Definition serve (reqs : list request) (expenses : list expense)
  : list expense :=
  fold_left (fun expenses req => fst (handler req expenses)) reqs expenses.

End Strict.

(** ** The [module.exports] handler *)

Module Timestamped.
Import JS.

Record expense : Type := {
  id : string;
  description : value;
  amount : number;
  date : value
}.

(** The array starts empty. *)
Definition expenses : list expense := [].

Record request : Type := {
  method : string;
  body : value;
  now : Z
}.

(** What [res.status(..)] is followed by: [end()], [json(..)] of one of
    three shapes, or [send(..)] of a text. *)
Inductive payload : Type :=
| PEnd
| PData (message : string) (data : list expense)
| PError (error : string)
| PCreated (message : string) (expense : expense)
| PText (text : string).

Record response : Type := {
  statusCode : Z;
  sent : payload
}.

(** The object literals behind a record and a body. *)
Definition expense_object (e : expense) : value :=
  VObject [("id", VString (id e));
           ("description", description e);
           ("amount", VNumber (amount e));
           ("date", date e)].

Definition payload_object (p : payload) : value :=
  match p with
  | PEnd => VUndefined
  | PData message data =>
      VObject [("message", VString message);
               ("data", VArray (map expense_object data))]
  | PError error => VObject [("error", VString error)]
  | PCreated message expense =>
      VObject [("message", VString message);
               ("expense", expense_object expense)]
  | PText text => VString text
  end.

(** The exported function.  Nothing catches here: a throw is the
    request's outcome. *)
Definition handler (req : request) : Eff.M (list expense) response :=
  if (method req =? "OPTIONS")%string then
    Eff.ret {| statusCode := 200; sent := PEnd |}
  else if (method req =? "GET")%string then
    expenses <- Eff.read ;;
    Eff.ret {| statusCode := 200;
               sent := PData "Data retrieved (In-memory, NOT persistent on Vercel)."
                             expenses |}
  else if (method req =? "POST")%string then
    description <- Eff.lift (get (body req) "description") ;;
    amount <- Eff.lift (get (body req) "amount") ;;
    date <- Eff.lift (get (body req) "date") ;;
    if negb (truthy description) || negb (truthy amount) then
      Eff.ret {| statusCode := 400;
                 sent := PError "Missing required fields: description and amount." |}
    else
      let newExpense :=
        {| id := int_to_string (now req);
           description := description;
           amount := parseFloat amount;
           date := or date (VString (today (now req))) |} in
      Eff.push newExpense ;;;
      Eff.ret {| statusCode := 201;
                 sent := PCreated "Expense added successfully (In-memory, NOT persistent on Vercel)."
                                  newExpense |}
  else
    Eff.ret {| statusCode := 405; sent := PText "Method Not Allowed" |}.

(** The status a run ended with, when it sent one. *)
Definition status (c : completion response) : option Z :=
  match c with
  | Normal r => Some (statusCode r)
  | Throw _ => None
  end.

(** The messages and the rejection, by name. *)
Definition retrieved : string :=
  "Data retrieved (In-memory, NOT persistent on Vercel).".

Definition created : string :=
  "Expense added successfully (In-memory, NOT persistent on Vercel).".

Definition rejected : response :=
  {| statusCode := 400;
     sent := PError "Missing required fields: description and amount." |}.

End Timestamped.

(** ** A reader for JSON texts

    The grammar of ECMA-404 as [JSON.parse] applies it: [None] stands for
    the SyntaxError.  It is the function [Api]'s [JSON_parse] is
    instantiated with. *)

Module Json.
Import JS.

Definition skip_ws_char (c : ascii) : bool :=
  ((code c =? 32) || (code c =? 9) || (code c =? 10) || (code c =? 13))%N.

Fixpoint skip_ws (s : string) : string :=
  match s with
  | String c r => if skip_ws_char c then skip_ws r else s
  | EmptyString => s
  end.

Fixpoint strip_prefix (p s : string) : option string :=
  match p, s with
  | EmptyString, _ => Some s
  | String a p', String b s' => if Ascii.eqb a b then strip_prefix p' s' else None
  | String _ _, EmptyString => None
  end.

Definition hex_value (c : ascii) : option N :=
  let n := code c in
  if ((48 <=? n) && (n <=? 57))%N then Some (n - 48)%N
  else if ((65 <=? n) && (n <=? 70))%N then Some (n - 55)%N
  else if ((97 <=? n) && (n <=? 102))%N then Some (n - 87)%N
  else None.

(** Four hexadecimal digits at the head of [s]. *)
Definition hex4 (s : string) : option (N * string) :=
  match s with
  | String a (String b (String c (String d r))) =>
      match hex_value a, hex_value b, hex_value c, hex_value d with
      | Some x, Some y, Some z, Some w =>
          Some (((x * 16 + y) * 16 + z) * 16 + w, r)%N
      | _, _, _, _ => None
      end
  | _ => None
  end.

Definition byte (n : N) : string := String (ascii_of_N n) EmptyString.

(** The UTF-8 bytes of a code point. *)
Definition utf8 (cp : N) : string :=
  (if cp <? 128 then byte cp
   else if cp <? 2048 then byte (192 + cp / 64) ++ byte (128 + cp mod 64)
   else if cp <? 65536 then
     byte (224 + cp / 4096) ++ byte (128 + cp / 64 mod 64)
       ++ byte (128 + cp mod 64)
   else
     byte (240 + cp / 262144) ++ byte (128 + cp / 4096 mod 64)
       ++ byte (128 + cp / 64 mod 64) ++ byte (128 + cp mod 64))%N.

Definition simple_escape (c : ascii) : option ascii :=
  let n := code c in
  (if (n =? 34) || (n =? 92) || (n =? 47) then Some c
   else if n =? 98 then Some (ascii_of_N 8)
   else if n =? 102 then Some (ascii_of_N 12)
   else if n =? 110 then Some (ascii_of_N 10)
   else if n =? 114 then Some (ascii_of_N 13)
   else if n =? 116 then Some (ascii_of_N 9)
   else None)%N.

Definition prepend (p : string) (r : option (string * string))
  : option (string * string) :=
  match r with
  | Some (s, rest) => Some (p ++ s, rest)
  | None => None
  end.

(** The characters of a string up to its closing quote, and what follows
    the quote. *)
Fixpoint string_body (fuel : nat) (s : string) : option (string * string) :=
  match fuel, s with
  | S f, String c r =>
      if (code c =? 34)%N then Some (EmptyString, r)
      else if (code c =? 92)%N then
        match r with
        | String e r' =>
            match simple_escape e with
            | Some ch => prepend (String ch EmptyString) (string_body f r')
            | None =>
                if (code e =? 117)%N then
                  match hex4 r' with
                  | Some (hi, r2) =>
                      let pair :=
                        if ((55296 <=? hi) && (hi <=? 56319))%N then
                          match strip_prefix "\u" r2 with
                          | Some r3 =>
                              match hex4 r3 with
                              | Some (lo, r4) =>
                                  if ((56320 <=? lo) && (lo <=? 57343))%N
                                  then Some (65536 + (hi - 55296) * 1024
                                             + (lo - 56320), r4)%N
                                  else None
                              | None => None
                              end
                          | None => None
                          end
                        else None in
                      match pair with
                      | Some (cp, r4) => prepend (utf8 cp) (string_body f r4)
                      | None => prepend (utf8 hi) (string_body f r2)
                      end
                  | None => None
                  end
                else None
            end
        | EmptyString => None
        end
      else if (code c <? 32)%N then None
      else prepend (String c EmptyString) (string_body f r)
  | _, _ => None
  end.

Definition quoted (s : string) : option (string * string) :=
  string_body (S (String.length s)) s.

(** A number: [-? int frac? exp?], no leading zeros, digits after a dot
    and after an exponent mark. *)
Definition number_ (s : string) : option (value * string) :=
  let '(neg, r) :=
    match s with
    | String "-" r => (true, r)
    | _ => (false, s)
    end in
  let '(ip, ni, r1) :=
    match r with
    | String "0" t => (0%N, 1, t)
    | _ => digits r 0%N 0
    end in
  if ni =? 0 then None
  else
    let frac :=
      match r1 with
      | String "." r2 =>
          let '(m, nf, r3) := digits r2 ip 0 in
          if nf =? 0 then None else Some (m, nf, r3)
      | _ => Some (ip, 0, r1)
      end in
    match frac with
    | None => None
    | Some (m, nf, r3) =>
        let expo :=
          match r3 with
          | String c r4 =>
              if ((code c =? 101) || (code c =? 69))%N then
                let '(eneg, r5) :=
                  match r4 with
                  | String "+" t => (false, t)
                  | String "-" t => (true, t)
                  | _ => (false, r4)
                  end in
                let '(x, n, r6) := digits r5 0%N 0 in
                if n =? 0 then None
                else Some (if eneg then - Z.of_N x else Z.of_N x, r6)
              else Some (0, r3)
          | EmptyString => Some (0, r3)
          end in
        match expo with
        | None => None
        | Some (e, rest) => Some (VNumber (of_decimal neg m (e - nf)), rest)
        end
    end.

(** A repeated key keeps its place and takes the later value. *)
Fixpoint set_property (k : string) (v : value) (props : list (string * value))
  : list (string * value) :=
  match props with
  | [] => [(k, v)]
  | (k', v') :: rest =>
      if String.eqb k k' then (k, v) :: rest
      else (k', v') :: set_property k v rest
  end.

Fixpoint value_ (fuel : nat) (s : string) : option (value * string) :=
  match fuel with
  | O => None
  | S f =>
      match skip_ws s with
      | String c r =>
          if (code c =? 123)%N then
            match skip_ws r with
            | String "}" r' => Some (VObject [], r')
            | _ => members f r []
            end
          else if (code c =? 91)%N then
            match skip_ws r with
            | String "]" r' => Some (VArray [], r')
            | _ => elements f r []
            end
          else if (code c =? 34)%N then
            match quoted r with
            | Some (str, r') => Some (VString str, r')
            | None => None
            end
          else
            match strip_prefix "true" (String c r),
                  strip_prefix "false" (String c r),
                  strip_prefix "null" (String c r) with
            | Some r', _, _ => Some (VBool true, r')
            | _, Some r', _ => Some (VBool false, r')
            | _, _, Some r' => Some (VNull, r')
            | None, None, None => number_ (String c r)
            end
      | EmptyString => None
      end
  end
with elements (fuel : nat) (s : string) (acc : list value)
  : option (value * string) :=
  match fuel with
  | O => None
  | S f =>
      match value_ f s with
      | Some (v, r) =>
          match skip_ws r with
          | String "," r' => elements f r' (v :: acc)
          | String "]" r' => Some (VArray (rev (v :: acc)), r')
          | _ => None
          end
      | None => None
      end
  end
with members (fuel : nat) (s : string) (acc : list (string * value))
  : option (value * string) :=
  match fuel with
  | O => None
  | S f =>
      match skip_ws s with
      | String c r =>
          if (code c =? 34)%N then
            match quoted r with
            | Some (k, r1) =>
                match skip_ws r1 with
                | String ":" r2 =>
                    match value_ f r2 with
                    | Some (v, r3) =>
                        match skip_ws r3 with
                        | String "," r4 => members f r4 (set_property k v acc)
                        | String "}" r4 =>
                            Some (VObject (set_property k v acc), r4)
                        | _ => None
                        end
                    | None => None
                    end
                | _ => None
                end
            | None => None
            end
          else None
      | EmptyString => None
      end
  end.

(** [JSON.parse(text)]. *)
Definition parse (text : string) : option value :=
  match value_ (2 * String.length text + 2) text with
  | Some (v, rest) =>
      match skip_ws rest with
      | EmptyString => Some v
      | String _ _ => None
      end
  | None => None
  end.

End Json.

(** ** Requests used below *)

Module Samples.
Import JS.

(** 2025-12-01T00:00:00.000Z. *)
Definition clock : Z := 1764547200000.

Definition twenty : value := VNumber (of_Z 20).

(** [{amount: 20, description: "Coffee"}]. *)
Definition coffee : value :=
  VObject [("amount", twenty); ("description", VString "Coffee")].

(** [{amount: -5, description: "Refund"}]. *)
Definition refund : value :=
  VObject [("amount", VNumber (of_Z (-5))); ("description", VString "Refund")].



(** [{amount: 20}] and [{description: "Coffee"}]. *)
Definition only_amount : value := VObject [("amount", twenty)].
Definition only_description : value :=
  VObject [("description", VString "Coffee")].



(** [{amount: 20, description: "Coffee", category: "Food",
     date: "2025-11-30"}]. *)
Definition full : value :=
  VObject [("amount", twenty); ("description", VString "Coffee");
           ("category", VString "Food"); ("date", VString "2025-11-30")].

(** The two seeds. *)
Definition groceries : Seeded.expense :=
  {| Seeded.id := 1;
     Seeded.amount := of_decimal false 5000 (-2);
     Seeded.description := VString "Groceries for the week";
     Seeded.category := VString "Food";
     Seeded.date := VString "2025-11-28" |}.

Definition streaming : Seeded.expense :=
  {| Seeded.id := 2;
     Seeded.amount := of_decimal false 1575 (-2);
     Seeded.description := VString "Monthly streaming subscription";
     Seeded.category := VString "Entertainment";
     Seeded.date := VString "2025-12-01" |}.


Definition coffee_stamped : Timestamped.expense :=
  {| Timestamped.id := "1764547200000";
     Timestamped.description := VString "Coffee";
     Timestamped.amount := of_Z 20;
     Timestamped.date := VString "2025-12-01" |}.

Definition quote : string := String (ascii_of_nat 34) EmptyString.

(** The text [{"amount": 20, "description": "Coffee"}]. *)
Definition coffee_text : string :=
  "{" ++ quote ++ "amount" ++ quote ++ ": 20, "
      ++ quote ++ "description" ++ quote ++ ": "
      ++ quote ++ "Coffee" ++ quote ++ "}".

Definition api (method : string) (chunks : list string) : Api.request :=
  {| Api.method := method; Api.chunks := chunks; Api.now := clock |}.

Definition strict (method : string) (body : value) : Strict.request :=
  {| Strict.method := method; Strict.body := body; Strict.now := clock |}.

Definition timestamped (method : string) (body : value)
  : Timestamped.request :=
  {| Timestamped.method := method; Timestamped.body := body;
     Timestamped.now := clock |}.

End Samples.

(** ** Notions the further properties are stated with *)

Module Support.
Import JS.




(** The integer a decimal id stands for. *)
Definition read_id (id : string) : option Z :=
  option_map Z.of_int (NilEmpty.int_of_string id).

(** Requests served one after the other by the [module.exports] handler;
    a request that throws leaves the array to the next one. *)
Definition serve_timestamped (reqs : list Timestamped.request)
    (expenses : list Timestamped.expense) : list Timestamped.expense :=
  fold_left (fun expenses req => fst (Timestamped.handler req expenses))
            reqs expenses.

(** Whether [c] occurs in [s]. *)
Fixpoint occurs (c : ascii) (s : string) : bool :=
  match s with
  | String a r => Ascii.eqb a c || occurs c r
  | EmptyString => false
  end.

(** Year within its 400-year era (counted from 1 March), month and day
    of the day numbered [doe] in the era: the inner part of
    [civil_from_days]. *)
Definition within_era (doe : Z) : Z * Z * Z :=
  let yoe := (doe - doe / 1460 + doe / 36524 - doe / 146096) / 365 in
  let doy := doe - (365 * yoe + yoe / 4 - yoe / 100) in
  let mp := (5 * doy + 2) / 153 in
  let d := doy - (153 * mp + 2) / 5 + 1 in
  let m := if mp <? 10 then mp + 3 else mp - 9 in
  (yoe + (if m <=? 2 then 1 else 0), m, d).

(** [p] holds of [start], [start + 1], ..., [count] integers in all. *)
Fixpoint all_from (count : nat) (start : Z) (p : Z -> bool) : bool :=
  match count with
  | O => true
  | S n => p start && all_from n (start + 1) p
  end.

(** [s] is [w] decimal digits. *)
Fixpoint all_digits (w : nat) (s : string) : bool :=
  match w, s with
  | O, EmptyString => true
  | S n, String c r => is_digit c && all_digits n r
  | _, _ => false
  end.

(** [s] has the shape YYYY-MM-DD. *)
Definition is_iso_date (s : string) : bool :=
  all_digits 4 (substring 0 4 s)
  && String.eqb (substring 4 1 s) "-"
  && all_digits 2 (substring 5 2 s)
  && String.eqb (substring 7 1 s) "-"
  && all_digits 2 (substring 8 2 s)
  && (String.length s =? 10)%nat.

(** The last millisecond of the year 9999. *)
Definition last_four_digit_ms : Z := 253402300799999.

(** [{amount: 20, description: "Coffee", category: "Drinks",
      date: "2025-11-30", id: 99, note: "extra"}]: the full coffee with
    an id and a note of the client's own. *)
Definition decorated : value :=
  VObject [("id", VNumber (of_Z 99)); ("note", VString "extra");
           ("date", VString "2025-11-30"); ("category", VString "Drinks");
           ("description", VString "Coffee"); ("amount", VNumber (of_Z 20))].

Definition plain : value :=
  VObject [("amount", VNumber (of_Z 20)); ("description", VString "Coffee");
           ("category", VString "Drinks"); ("date", VString "2025-11-30")].

End Support.

(** * Properties *)

(** ** Facts about the built-ins *)

Module JSFacts.
Import JS.









(** At 2^53 the sum is lost in rounding. *)
Lemma succ_stuck : succ (2 ^ 53) = 2 ^ 53.
Proof. reflexivity. Qed.

(** [succ] is the binary64 sum with 1, here on both sides of 2^53. *)
Example succ_is_binary64_sum :
  SFadd prec emax (of_Z 0) (of_Z 1) = of_Z (succ 0)
  /\ SFadd prec emax (of_Z 2) (of_Z 1) = of_Z (succ 2)
  /\ SFadd prec emax (of_Z 999) (of_Z 1) = of_Z (succ 999)
  /\ SFadd prec emax (of_Z (2 ^ 53 - 2)) (of_Z 1) = of_Z (succ (2 ^ 53 - 2))
  /\ SFadd prec emax (of_Z (2 ^ 53 - 1)) (of_Z 1) = of_Z (succ (2 ^ 53 - 1))
  /\ SFadd prec emax (of_Z (2 ^ 53)) (of_Z 1) = of_Z (succ (2 ^ 53))
  /\ of_Z (2 ^ 53) = of_Z (2 ^ 53 + 1).
Proof. vm_compute. repeat split. Qed.

Lemma truthy_or (a b : value) : truthy a = true -> or a b = a.
Proof. unfold or. now intros ->. Qed.


(** The built-ins on known values. *)
Example parseFloat_known :
  parseFloat_string "20" = of_Z 20
  /\ parseFloat_string "  -5" = of_Z (-5)
  /\ parseFloat_string "12.5px" = of_decimal false 125 (-1)
  /\ parseFloat_string ".5e1" = of_Z 5
  /\ parseFloat_string "0.1" = S754_finite false 7205759403792794 (-56)
  /\ parseFloat_string "1e-400" = zero
  /\ parseFloat_string "1e400" = Infinity
  /\ parseFloat_string "-Infinity" = S754_infinity true
  /\ parseFloat_string "abc" = NaN
  /\ parseFloat_string "e5" = NaN
  /\ parseFloat (VArray [VString "7"; VNull]) = of_Z 7
  /\ parseFloat (VBool true) = NaN.
Proof. vm_compute. repeat split. Qed.

Example dates_known :
  toISOString 0 = "1970-01-01T00:00:00.000Z"
  /\ toISOString 1709251199999 = "2024-02-29T23:59:59.999Z"
  /\ toISOString (-1) = "1969-12-31T23:59:59.999Z"
  /\ toISOString 253402300800000 = "+010000-01-01T00:00:00.000Z"
  /\ today 1764547200000 = "2025-12-01"
  /\ today 1764547199999 = "2025-11-30"
  /\ int_to_string 1764547200000 = "1764547200000".
Proof. vm_compute. repeat split. Qed.

End JSFacts.

(** The reader on the text of the coffee request, and on texts that are
    not JSON. *)
Example json_known :
  Json.parse Samples.coffee_text = Some Samples.coffee
  /\ Json.parse "[1, [true, null], {}]"
     = Some (JS.VArray [JS.VNumber (JS.of_Z 1);
                        JS.VArray [JS.VBool true; JS.VNull];
                        JS.VObject []])
  /\ Json.parse EmptyString = None
  /\ Json.parse "{oops" = None
  /\ Json.parse "[1, 2,]" = None
  /\ Json.parse "01" = None
  /\ Json.parse "undefined" = None.
Proof. vm_compute. repeat split. Qed.

(** ** Facts shared by the two seeded handlers *)

Module SeededFacts.
Import JS Seeded.

(** On an object the missing fields are those it does not own, in the
    order of [requiredFields]. *)
Lemma missingFields_object (fields : list string) (props : list (string * value)) :
  missingFields fields (VObject props)
  = Normal (List.filter (fun field => negb (own field props)) fields).
Proof.
  unfold missingFields.
  induction fields as [| f fields IH]; cbn; [reflexivity |].
  cbn in IH. rewrite IH. cbn. now destruct (own f props).
Qed.

(** An array has none of them. *)
Lemma missingFields_array (fields : list string) (elems : list value) :
  missingFields fields (VArray elems) = Normal fields.
Proof.
  unfold missingFields.
  induction fields as [| f fields IH]; cbn; [reflexivity |].
  cbn in IH. now rewrite IH.
Qed.

(** Anything else makes the first [in] throw. *)
Lemma missingFields_throw (f : string) (fields : list string) (v : value) :
  (forall props, v <> VObject props) ->
  (forall elems, v <> VArray elems) ->
  exists e, missingFields (f :: fields) v = Throw e.
Proof.
  intros Hobj Harr. unfold missingFields.
  destruct v; cbn; eauto.
  - now destruct (Harr elems).
  - now destruct (Hobj props).
Qed.

(** When no field is missing the body is an object that owns them all. *)
Lemma missingFields_none (fields : list string) (v : value) :
  fields <> [] ->
  missingFields fields v = Normal [] ->
  exists props, v = VObject props /\ forall f, In f fields -> own f props = true.
Proof.
  intros Hne H. destruct v;
    try (destruct fields as [| f fields]; [congruence | cbn in H; discriminate]).
  - rewrite missingFields_array in H. congruence.
  - exists props. split; [reflexivity |].
    rewrite missingFields_object in H. injection H as H.
    intros f Hf.
    destruct (own f props) eqn:E; [reflexivity |].
    assert (Hin : In f (List.filter (fun field => negb (own field props)) fields)).
    { apply filter_In. split; [assumption | now rewrite E]. }
    rewrite H in Hin. contradiction.
Qed.




Lemma newId_empty : newId [] = 1.
Proof. reflexivity. Qed.








(** Any handler that leaves the array alone or pushes one record under
    the next id keeps ids distinct and hands them out in increasing
    order. *)
Section Steps.

Variable R : Type.
Variable handle : R -> list expense -> list expense * response.

Hypothesis handle_outcome : forall req expenses,
  (fst (handle req expenses) = expenses
   /\ statusCode (snd (handle req expenses)) <> 201)
  \/ (exists r message,
        handle req expenses
        = ((expenses ++ [r])%list, sendResponse 201 (PCreated message r))
        /\ id r = newId expenses).




End Steps.

End SeededFacts.

(** ** src/api/expenses.js: what a create request comes to *)

Module ApiFacts.
Import JS Seeded Api.

(** The create operation on an object, one branch per outcome. *)
Lemma api_post_object (req : request) (props : list (string * value))
    (expenses : list expense) :
  handlePOST req (VObject props) expenses =
    let missing := List.filter (fun f => negb (own f props)) requiredFields in
    if (0 <? List.length missing)%nat then
      (expenses,
       Normal (sendResponse 400 (PMissing "Missing required fields" missing)))
    else
      let a := parseFloat (prop "amount" props) in
      if isNaN a || le a zero then
        (expenses,
         Normal (sendResponse 400
                   (PError "Invalid amount. Must be a positive number.")))
      else
        let r := {| id := newId expenses;
                    amount := a;
                    description := prop "description" props;
                    category := or (prop "category" props)
                                   (VString "Uncategorized");
                    date := or (prop "date" props)
                               (VString (today (now req))) |} in
        ((expenses ++ [r])%list,
         Normal (sendResponse 201 (PCreated "Expense added successfully" r))).
Proof.
  unfold handlePOST. cbv zeta.
  unfold Eff.bind at 1. unfold Eff.lift at 1.
  rewrite SeededFacts.missingFields_object.
  destruct (0 <? _)%nat; [reflexivity |].
  unfold Eff.bind, Eff.lift, Eff.read, Eff.push, Eff.ret, get.
  destruct (isNaN _ || le _ zero); reflexivity.
Qed.

(** An array owns no required field. *)
Lemma api_post_array (req : request) (elems : list value)
    (expenses : list expense) :
  handlePOST req (VArray elems) expenses =
    (expenses,
     Normal (sendResponse 400
               (PMissing "Missing required fields" requiredFields))).
Proof.
  unfold handlePOST. cbv zeta.
  unfold Eff.bind at 1. unfold Eff.lift at 1.
  rewrite SeededFacts.missingFields_array. reflexivity.
Qed.

(** On any other body the first [in] throws, before anything is done. *)
Lemma api_post_throws (req : request) (body : value)
    (expenses : list expense) :
  (forall props, body <> VObject props) ->
  (forall elems, body <> VArray elems) ->
  exists e, handlePOST req body expenses = (expenses, Throw e).
Proof.
  intros Hobj Harr.
  destruct (SeededFacts.missingFields_throw "amount" ["description"] body Hobj Harr)
    as [e He].
  exists e. unfold handlePOST. cbv zeta.
  unfold Eff.bind at 1. unfold Eff.lift at 1.
  fold requiredFields in He. now rewrite He.
Qed.


(** Whatever the body, the array is left as it was or grows by the one
    record the response carries. *)
Lemma api_post_outcome (req : request) (body : value)
    (expenses : list expense) :
  (exists sent, handlePOST req body expenses = (expenses, Normal sent)
                /\ statusCode sent = 400)
  \/ (exists e, handlePOST req body expenses = (expenses, Throw e))
  \/ (exists r message,
        handlePOST req body expenses
        = ((expenses ++ [r])%list, Normal (sendResponse 201 (PCreated message r)))
        /\ id r = newId expenses).
Proof.
  destruct body as [| | b | x | s | elems | props];
    try (right; left; apply api_post_throws; congruence).
  - left. rewrite api_post_array. eauto.
  - rewrite api_post_object. cbv zeta.
    destruct (0 <? _)%nat; [left; eauto |].
    destruct (isNaN _ || le _ zero); [left; eauto |].
    right; right. eauto.
Qed.

(** A request leaves the array as it was and is not answered 201, or it
    is a create that pushed one record under the next id. *)
Lemma api_handler_outcome (JSON_parse : string -> option value)
    (req : request) (expenses : list expense) :
  (fst (handler JSON_parse req expenses) = expenses
   /\ statusCode (snd (handler JSON_parse req expenses)) <> 201)
  \/ (exists r message,
        handler JSON_parse req expenses
        = ((expenses ++ [r])%list, sendResponse 201 (PCreated message r))
        /\ id r = newId expenses
        /\ method req = "POST").
Proof.
  unfold handler.
  destruct (method req =? "OPTIONS")%string; [left; split; [reflexivity | discriminate] |].
  destruct (method req =? "GET")%string; [left; split; [reflexivity | discriminate] |].
  destruct (method req =? "POST")%string eqn:Hm;
    [| left; split; [reflexivity | discriminate]].
  apply String.eqb_eq in Hm.
  destruct (api_post_outcome req (parseBody JSON_parse req) expenses)
    as [[sent [-> Hs]] | [[e ->] | [r [message [-> Hr]]]]].
  - left. cbn. split; [reflexivity | congruence].
  - left. split; [reflexivity | discriminate].
  - right. exists r, message. auto.
Qed.


End ApiFacts.

(** ** The four-field handler: what a create request comes to *)

Module StrictFacts.
Import JS Seeded Strict.

Lemma strict_post_object (req : request) (props : list (string * value))
    (expenses : list expense) :
  body req = VObject props ->
  handlePOST req expenses =
    let missing := List.filter (fun f => negb (own f props)) requiredFields in
    if (0 <? List.length missing)%nat then
      (expenses,
       Normal (sendResponse 400 (PMissing "Missing required fields" missing)))
    else
      let a := parseFloat (prop "amount" props) in
      if isNaN a || le a zero then
        (expenses,
         Normal (sendResponse 400
                   (PError "Invalid amount. Must be a positive number.")))
      else
        let r := {| id := newId expenses;
                    amount := a;
                    description := prop "description" props;
                    category := prop "category" props;
                    date := prop "date" props |} in
        ((expenses ++ [r])%list,
         Normal (sendResponse 201 (PCreated "Expense added successfully" r))).
Proof.
  intros Hb. unfold handlePOST. cbv zeta. rewrite Hb.
  unfold Eff.bind at 1. unfold Eff.lift at 1.
  rewrite SeededFacts.missingFields_object.
  destruct (0 <? _)%nat; [reflexivity |].
  unfold Eff.bind, Eff.lift, Eff.read, Eff.push, Eff.ret, get.
  destruct (isNaN _ || le _ zero); reflexivity.
Qed.

Lemma strict_post_array (req : request) (elems : list value)
    (expenses : list expense) :
  body req = VArray elems ->
  handlePOST req expenses =
    (expenses,
     Normal (sendResponse 400
               (PMissing "Missing required fields" requiredFields))).
Proof.
  intros Hb. unfold handlePOST. cbv zeta. rewrite Hb.
  unfold Eff.bind at 1. unfold Eff.lift at 1.
  rewrite SeededFacts.missingFields_array. reflexivity.
Qed.

Lemma strict_post_throws (req : request) (expenses : list expense) :
  (forall props, body req <> VObject props) ->
  (forall elems, body req <> VArray elems) ->
  exists e, handlePOST req expenses = (expenses, Throw e).
Proof.
  intros Hobj Harr.
  destruct (SeededFacts.missingFields_throw
              "amount" ["description"; "category"; "date"] (body req) Hobj Harr)
    as [e He].
  exists e. unfold handlePOST. cbv zeta.
  unfold Eff.bind at 1. unfold Eff.lift at 1.
  fold requiredFields in He. now rewrite He.
Qed.


Lemma strict_post_outcome (req : request) (expenses : list expense) :
  (exists sent, handlePOST req expenses = (expenses, Normal sent)
                /\ statusCode sent = 400)
  \/ (exists e, handlePOST req expenses = (expenses, Throw e))
  \/ (exists r message,
        handlePOST req expenses
        = ((expenses ++ [r])%list, Normal (sendResponse 201 (PCreated message r)))
        /\ id r = newId expenses).
Proof.
  destruct (body req) as [| | b | x | s | elems | props] eqn:Hb;
    try (right; left; apply strict_post_throws; rewrite Hb; congruence).
  - left. rewrite (strict_post_array req elems expenses Hb). eauto.
  - rewrite (strict_post_object req props expenses Hb). cbv zeta.
    destruct (0 <? _)%nat; [left; eauto |].
    destruct (isNaN _ || le _ zero); [left; eauto |].
    right; right. eauto.
Qed.

Lemma strict_handler_outcome (req : request) (expenses : list expense) :
  (fst (handler req expenses) = expenses
   /\ statusCode (snd (handler req expenses)) <> 201)
  \/ (exists r message,
        handler req expenses
        = ((expenses ++ [r])%list, sendResponse 201 (PCreated message r))
        /\ id r = newId expenses
        /\ method req = "POST").
Proof.
  unfold handler.
  destruct (method req =? "GET")%string; [left; split; [reflexivity | discriminate] |].
  destruct (method req =? "POST")%string eqn:Hm;
    [| left; split; [reflexivity | discriminate]].
  apply String.eqb_eq in Hm.
  destruct (strict_post_outcome req expenses)
    as [[sent [-> Hs]] | [[e ->] | [r [message [-> Hr]]]]].
  - left. cbn. split; [reflexivity | congruence].
  - left. split; [reflexivity | discriminate].
  - right. exists r, message. auto.
Qed.


End StrictFacts.

(** ** The [module.exports] handler: what a create request comes to *)

Module TimestampedFacts.
Import JS Timestamped.

(** A create request on an object, one branch per outcome. *)
Lemma post_object (req : request) (props : list (string * value))
    (expenses : list expense) :
  method req = "POST" ->
  body req = VObject props ->
  handler req expenses =
    if negb (truthy (prop "description" props))
       || negb (truthy (prop "amount" props))
    then (expenses, Normal rejected)
    else
      let r := {| id := int_to_string (now req);
                  description := prop "description" props;
                  amount := parseFloat (prop "amount" props);
                  date := or (prop "date" props)
                             (VString (today (now req))) |} in
      ((expenses ++ [r])%list,
       Normal {| statusCode := 201; sent := PCreated created r |}).
Proof.
  intros Hm Hb. unfold handler. rewrite Hm, Hb. cbn [String.eqb Ascii.eqb Bool.eqb].
  unfold Eff.bind, Eff.lift, Eff.read, Eff.push, Eff.ret, get.
  destruct (negb _ || negb _); reflexivity.
Qed.

(** Whatever the request, the array is left as it was or grows by one
    record, whose id is the clock reading in decimal. *)
Lemma handler_outcome (req : request) (expenses : list expense) :
  (exists resp, handler req expenses = (expenses, Normal resp)
                /\ statusCode resp <> 201)
  \/ (exists e, handler req expenses = (expenses, Throw e))
  \/ (exists r,
        handler req expenses
        = ((expenses ++ [r])%list,
           Normal {| statusCode := 201; sent := PCreated created r |})
        /\ method req = "POST"
        /\ id r = int_to_string (now req)
        /\ truthy (description r) = true).
Proof.
  unfold handler.
  destruct (method req =? "OPTIONS")%string; [left; eexists; split; [reflexivity | discriminate] |].
  destruct (method req =? "GET")%string; [left; eexists; split; [reflexivity | discriminate] |].
  destruct (method req =? "POST")%string eqn:Hm;
    [| left; eexists; split; [reflexivity | discriminate]].
  apply String.eqb_eq in Hm.
  unfold Eff.bind, Eff.lift, Eff.read, Eff.push, Eff.ret.
  destruct (body req) as [| | b | x | s | elems | props]; cbn [get];
    try (right; left; eexists; reflexivity);
    try (left; eexists; split; [reflexivity | discriminate]).
  destruct (truthy (prop "description" props)) eqn:Hd; cbn [negb orb];
    [| left; eexists; split; [reflexivity | discriminate]].
  destruct (truthy (prop "amount" props)) eqn:Ha; cbn [negb];
    [| left; eexists; split; [reflexivity | discriminate]].
  right; right. eexists. split; [reflexivity |]. cbn. auto.
Qed.

(** A run answered 201 pushed one record under the clock reading. *)
Lemma created_at_clock (req : request) (expenses : list expense) :
  status (snd (handler req expenses)) = Some 201 ->
  exists r, fst (handler req expenses) = (expenses ++ [r])%list
            /\ id r = int_to_string (now req).
Proof.
  intros Hs.
  destruct (handler_outcome req expenses)
    as [[resp [E Hc]] | [[e E] | [r [E [_ [Hr _]]]]]];
    rewrite E in *; cbn in Hs.
  - injection Hs as Hs. contradiction.
  - discriminate.
  - now exists r.
Qed.

End TimestampedFacts.

(** * The claims *)

Import JS.

(** ** C1: the numeric check *)




(** ** C2: the required-field check *)

(** C2 fails as stated.  The [module.exports] handler answers a request
    that lacks only [description] and one that lacks only [amount] with
    the same fixed message, so its 400 does not tell which field is
    missing.  In src/api/expenses.js the body [null] has neither field,
    and the answer is 500: [in] throws on it. *)
Lemma missing_fields_not_always_reported :
  Timestamped.handler (Samples.timestamped "POST" Samples.only_amount)
                      Timestamped.expenses
  = ([], Normal {| Timestamped.statusCode := 400;
                   Timestamped.sent :=
                     Timestamped.PError
                       "Missing required fields: description and amount." |})
  /\ Timestamped.handler (Samples.timestamped "POST" Samples.only_description)
                         Timestamped.expenses
     = ([], Normal {| Timestamped.statusCode := 400;
                      Timestamped.sent :=
                        Timestamped.PError
                          "Missing required fields: description and amount." |})
  /\ Json.parse "null" = Some VNull
  /\ Api.handler Json.parse (Samples.api "POST" ["null"]) Seeded.expenses
     = (Seeded.expenses,
        Seeded.sendResponse 500 (Seeded.PError "Internal Server Error")).
Proof. vm_compute. repeat split. Qed.

(** C2, as amended.  In src/api/expenses.js and in the four-field handler,
    a create request whose body is an object that lacks a required field
    gets a 400 whose [missing] lists exactly the required fields the body
    lacks, and the array is unchanged; a body that is an array lacks them
    all.  In the [module.exports] handler a request whose body is an
    object that lacks [description] or [amount] gets the 400 with the one
    fixed message, and the array is unchanged. *)
Theorem missing_fields_are_reported :
  (forall (req : Api.request) (props : list (string * value))
          (expenses : list Seeded.expense),
      let missing :=
        List.filter (fun f => negb (own f props)) Api.requiredFields in
      missing <> [] ->
      Api.handlePOST req (VObject props) expenses
      = (expenses,
         Normal (Seeded.sendResponse 400
                   (Seeded.PMissing "Missing required fields" missing)))
      /\ forall f, In f missing
                   <-> In f Api.requiredFields /\ own f props = false)
  /\ (forall (req : Api.request) (elems : list value)
             (expenses : list Seeded.expense),
         Api.handlePOST req (VArray elems) expenses
         = (expenses,
            Normal (Seeded.sendResponse 400
                      (Seeded.PMissing "Missing required fields"
                                       ["amount"; "description"]))))
  /\ (forall (req : Strict.request) (props : list (string * value))
             (expenses : list Seeded.expense),
         let missing :=
           List.filter (fun f => negb (own f props)) Strict.requiredFields in
         Strict.body req = VObject props ->
         missing <> [] ->
         Strict.handlePOST req expenses
         = (expenses,
            Normal (Seeded.sendResponse 400
                      (Seeded.PMissing "Missing required fields" missing)))
         /\ forall f, In f missing
                      <-> In f Strict.requiredFields /\ own f props = false)
  /\ (forall (req : Strict.request) (elems : list value)
             (expenses : list Seeded.expense),
         Strict.body req = VArray elems ->
         Strict.handlePOST req expenses
         = (expenses,
            Normal (Seeded.sendResponse 400
                      (Seeded.PMissing
                         "Missing required fields"
                         ["amount"; "description"; "category"; "date"]))))
  /\ (forall (req : Timestamped.request) (props : list (string * value))
             (expenses : list Timestamped.expense),
         Timestamped.method req = "POST" ->
         Timestamped.body req = VObject props ->
         own "description" props = false \/ own "amount" props = false ->
         Timestamped.handler req expenses
         = (expenses,
            Normal {| Timestamped.statusCode := 400;
                      Timestamped.sent :=
                        Timestamped.PError
                          "Missing required fields: description and amount." |})).
Proof.
  assert (Hin : forall fields props f,
             In f (List.filter (fun f => negb (own f props)) fields)
             <-> In f fields /\ own f props = false).
  { intros fields props f. rewrite filter_In, negb_true_iff. reflexivity. }
  repeat apply conj.
  - intros req props expenses missing Hne. split; [| apply Hin].
    rewrite ApiFacts.api_post_object. cbv zeta. fold missing.
    destruct missing; [congruence | reflexivity].
  - intros req elems expenses. apply ApiFacts.api_post_array.
  - intros req props expenses missing Hb Hne. split; [| apply Hin].
    rewrite (StrictFacts.strict_post_object req props expenses Hb).
    cbv zeta. fold missing.
    destruct missing; [congruence | reflexivity].
  - intros req elems expenses Hb.
    now apply (StrictFacts.strict_post_array req elems).
  - intros req props expenses Hm Hb Hmiss.
    rewrite (TimestampedFacts.post_object req props expenses Hm Hb).
    assert (Hfalsy : forall k, own k props = false -> truthy (prop k props) = false).
    { intros k. unfold own, prop. now destruct (lookup k props). }
    destruct Hmiss as [H | H]; apply Hfalsy in H; rewrite H.
    + reflexivity.
    + now rewrite orb_true_r.
Qed.

Lemma missing_fields_are_reported_witness :
  (Api.handlePOST (Samples.api "POST" []) Samples.only_amount Seeded.expenses
   = (Seeded.expenses,
      Normal (Seeded.sendResponse 400
                (Seeded.PMissing "Missing required fields" ["description"]))))
  /\ (Strict.handlePOST (Samples.strict "POST" Samples.coffee) Seeded.expenses
      = (Seeded.expenses,
         Normal (Seeded.sendResponse 400
                   (Seeded.PMissing "Missing required fields"
                                    ["category"; "date"]))))
  /\ (Strict.handlePOST (Samples.strict "POST" (VArray [Samples.twenty]))
                        Seeded.expenses
      = (Seeded.expenses,
         Normal (Seeded.sendResponse 400
                   (Seeded.PMissing
                      "Missing required fields"
                      ["amount"; "description"; "category"; "date"]))))
  /\ (Timestamped.handler (Samples.timestamped "POST" Samples.only_amount)
                          Timestamped.expenses
      = (Timestamped.expenses, Normal Timestamped.rejected)).
Proof.
  destruct missing_fields_are_reported as [A [_ [S [SA T]]]].
  repeat apply conj.
  - refine (proj1 (A (Samples.api "POST" []) [("amount", Samples.twenty)]
                     Seeded.expenses _)).
    discriminate.
  - refine (proj1 (S (Samples.strict "POST" Samples.coffee)
                     [("amount", Samples.twenty);
                      ("description", VString "Coffee")]
                     Seeded.expenses eq_refl _)).
    discriminate.
  - exact (SA (Samples.strict "POST" (VArray [Samples.twenty]))
              [Samples.twenty] Seeded.expenses eq_refl).
  - refine (T (Samples.timestamped "POST" Samples.only_amount)
              [("amount", Samples.twenty)] Timestamped.expenses
              eq_refl eq_refl _).
    left. reflexivity.
Defined.

(** ** C3: identifiers *)




(** ** C4: defaults of a create *)




(** ** C5: the list operation *)

(** C5 fails as stated.  The list response of the [module.exports]
    handler is a message and the records: it has no [total]. *)
Lemma list_without_total :
  Timestamped.handler (Samples.timestamped "GET" VUndefined)
                      Timestamped.expenses
  = ([], Normal {| Timestamped.statusCode := 200;
                   Timestamped.sent :=
                     Timestamped.PData Timestamped.retrieved [] |})
  /\ Timestamped.payload_object (Timestamped.PData Timestamped.retrieved [])
     = VObject [("message", VString Timestamped.retrieved);
                ("data", VArray [])]
  /\ get (Timestamped.payload_object
            (Timestamped.PData Timestamped.retrieved []))
         "total"
     = Normal VUndefined.
Proof. vm_compute. repeat split. Qed.

(** C5, as amended.  The list operation answers 200 with every record
    held: src/api/expenses.js newest first and with their count as
    [total], the four-field handler in insertion order and with their
    count as [total], the [module.exports] handler in insertion order
    under a message and without a count.  On the arrays the files start
    from, these are the two seeds with total 2 and, for the
    [module.exports] handler, no record. *)
Theorem list_returns_all_records :
  (forall (JSON_parse : string -> option value) (chunks : list string)
          (now : Z) (expenses : list Seeded.expense),
      snd (Api.handler JSON_parse
             {| Api.method := "GET"; Api.chunks := chunks; Api.now := now |}
             expenses)
      = Seeded.sendResponse 200
          (Seeded.PList (rev expenses) (List.length expenses))
      /\ forall e, In e (rev expenses) <-> In e expenses)
  /\ (forall (body : value) (now : Z) (expenses : list Seeded.expense),
         snd (Strict.handler
                {| Strict.method := "GET"; Strict.body := body;
                   Strict.now := now |}
                expenses)
         = Seeded.sendResponse 200
             (Seeded.PList expenses (List.length expenses)))
  /\ (forall (body : value) (now : Z) (expenses : list Timestamped.expense),
         snd (Timestamped.handler
                {| Timestamped.method := "GET"; Timestamped.body := body;
                   Timestamped.now := now |}
                expenses)
         = Normal {| Timestamped.statusCode := 200;
                     Timestamped.sent :=
                       Timestamped.PData Timestamped.retrieved expenses |})
  /\ (forall JSON_parse : string -> option value,
         Api.handler JSON_parse (Samples.api "GET" []) Seeded.expenses
         = (Seeded.expenses,
            Seeded.sendResponse 200
              (Seeded.PList [Samples.streaming; Samples.groceries] 2)))
  /\ Strict.handler (Samples.strict "GET" VUndefined) Seeded.expenses
     = (Seeded.expenses,
        Seeded.sendResponse 200
          (Seeded.PList [Samples.groceries; Samples.streaming] 2))
  /\ Timestamped.handler (Samples.timestamped "GET" VUndefined)
                         Timestamped.expenses
     = (Timestamped.expenses,
        Normal {| Timestamped.statusCode := 200;
                  Timestamped.sent :=
                    Timestamped.PData Timestamped.retrieved [] |}).
Proof.
  split; [| repeat apply conj; try intros ?; reflexivity].
  intros JSON_parse chunks now expenses. split; [reflexivity |].
  intros e. destruct (in_rev expenses e). split; assumption.
Qed.

(** ** C6: the description of a stored record *)




(** ** C7: a body that does not parse *)

(** C7.  In src/api/expenses.js a create request whose body [JSON.parse]
    rejects is read as the empty object, and is therefore answered by the
    required-field check: 400 with both [amount] and [description]
    reported missing, the array as it was. *)
Theorem unparseable_body_is_empty_record :
  forall (JSON_parse : string -> option value) (req : Api.request)
         (expenses : list Seeded.expense),
    Api.method req = "POST" ->
    JSON_parse (fold_left (fun body chunk => body ++ chunk) (Api.chunks req)
                          EmptyString) = None ->
    Api.parseBody JSON_parse req = VObject []
    /\ Api.handler JSON_parse req expenses
       = (expenses,
          Seeded.sendResponse 400
            (Seeded.PMissing "Missing required fields"
                             ["amount"; "description"])).
Proof.
  intros JSON_parse req expenses Hm Hparse.
  assert (Hbody : Api.parseBody JSON_parse req = VObject []).
  { unfold Api.parseBody. cbv zeta. now rewrite Hparse. }
  split; [assumption |].
  unfold Api.handler. rewrite Hm, Hbody.
  cbn [String.eqb Ascii.eqb Bool.eqb].
  rewrite ApiFacts.api_post_object. reflexivity.
Qed.

Lemma unparseable_body_is_empty_record_witness :
  Json.parse "{oops" = None
  /\ Api.parseBody Json.parse (Samples.api "POST" ["{oo"; "ps"]) = VObject []
  /\ Api.handler Json.parse (Samples.api "POST" ["{oo"; "ps"]) Seeded.expenses
     = (Seeded.expenses,
        Seeded.sendResponse 400
          (Seeded.PMissing "Missing required fields"
                           ["amount"; "description"])).
Proof.
  split; [reflexivity |].
  apply (unparseable_body_is_empty_record
           Json.parse (Samples.api "POST" ["{oo"; "ps"]) Seeded.expenses).
  - reflexivity.
  - reflexivity.
Defined.

(** ** C8: error responses *)

(** C8.  A request that is answered 400, 405 or 500 leaves the array as it
    was: in src/api/expenses.js, and equally in the four-field handler and
    in the [module.exports] handler.  The last catches nothing: there a
    throw ends the request, and it too leaves the array as it was.  Each
    handler answers a request once: its result is one response. *)
Theorem errors_leave_the_array :
  (forall (JSON_parse : string -> option value) (req : Api.request)
          (expenses : list Seeded.expense),
      In (Seeded.statusCode (snd (Api.handler JSON_parse req expenses)))
         [400; 405; 500] ->
      fst (Api.handler JSON_parse req expenses) = expenses)
  /\ (forall (req : Strict.request) (expenses : list Seeded.expense),
         In (Seeded.statusCode (snd (Strict.handler req expenses)))
            [400; 405; 500] ->
         fst (Strict.handler req expenses) = expenses)
  /\ (forall (req : Timestamped.request) (expenses : list Timestamped.expense)
             (code : Z),
         Timestamped.status (snd (Timestamped.handler req expenses))
         = Some code ->
         In code [400; 405; 500] ->
         fst (Timestamped.handler req expenses) = expenses)
  /\ (forall (req : Timestamped.request) (expenses : list Timestamped.expense),
         Timestamped.status (snd (Timestamped.handler req expenses)) = None ->
         fst (Timestamped.handler req expenses) = expenses).
Proof.
  assert (T : forall (req : Timestamped.request)
                     (expenses : list Timestamped.expense),
             Timestamped.status (snd (Timestamped.handler req expenses))
             <> Some 201 ->
             fst (Timestamped.handler req expenses) = expenses).
  { intros req expenses Hs.
    destruct (TimestampedFacts.handler_outcome req expenses)
      as [[resp [E _]] | [[e E] | [r [E _]]]]; rewrite E in *;
      try reflexivity.
    cbn in Hs. congruence. }
  repeat apply conj;
    [| | intros req expenses code Hs Hin; apply T; rewrite Hs;
         cbn in Hin; intuition congruence
       | intros req expenses Hs; apply T; rewrite Hs; discriminate].
  - intros JSON_parse req expenses Hs.
    destruct (ApiFacts.api_handler_outcome JSON_parse req expenses)
      as [[E _] | [r [message [E _]]]]; [assumption |].
    rewrite E in Hs. cbn in Hs. intuition discriminate.
  - intros req expenses Hs.
    destruct (StrictFacts.strict_handler_outcome req expenses)
      as [[E _] | [r [message [E _]]]]; [assumption |].
    rewrite E in Hs. cbn in Hs. intuition discriminate.
Qed.

Lemma errors_leave_the_array_witness :
  fst (Api.handler Json.parse (Samples.api "POST" ["null"]) Seeded.expenses)
  = Seeded.expenses
  /\ fst (Api.handler Json.parse (Samples.api "DELETE" []) Seeded.expenses)
     = Seeded.expenses
  /\ fst (Strict.handler (Samples.strict "POST" Samples.refund) Seeded.expenses)
     = Seeded.expenses
  /\ fst (Timestamped.handler (Samples.timestamped "PUT" VUndefined)
                              [Samples.coffee_stamped])
     = [Samples.coffee_stamped]
  /\ fst (Timestamped.handler (Samples.timestamped "POST" VNull)
                              [Samples.coffee_stamped])
     = [Samples.coffee_stamped].
Proof.
  destruct errors_leave_the_array as [A [S [T U]]].
  repeat apply conj.
  - apply A. cbn. auto.
  - apply A. cbn. auto.
  - apply S. cbn. auto.
  - apply (T (Samples.timestamped "PUT" VUndefined) [Samples.coffee_stamped]
             405); [reflexivity | cbn; auto].
  - apply U. reflexivity.
Defined.

(** ** C9: the list operation has no effect *)

(** C9.  After a list operation the array holds the same records in the
    same order as before, also in src/api/expenses.js, which answers with
    a reversed copy. *)
Theorem list_has_no_effect :
  (forall (JSON_parse : string -> option value) (req : Api.request)
          (expenses : list Seeded.expense),
      Api.method req = "GET" ->
      fst (Api.handler JSON_parse req expenses) = expenses
      /\ Seeded.body (snd (Api.handler JSON_parse req expenses))
         = Seeded.PList (rev expenses) (List.length expenses))
  /\ (forall (req : Strict.request) (expenses : list Seeded.expense),
         Strict.method req = "GET" ->
         fst (Strict.handler req expenses) = expenses)
  /\ (forall (req : Timestamped.request) (expenses : list Timestamped.expense),
         Timestamped.method req = "GET" ->
         fst (Timestamped.handler req expenses) = expenses).
Proof.
  repeat apply conj.
  - intros JSON_parse req expenses Hm. unfold Api.handler. rewrite Hm.
    split; reflexivity.
  - intros req expenses Hm. unfold Strict.handler. now rewrite Hm.
  - intros req expenses Hm. unfold Timestamped.handler. now rewrite Hm.
Qed.

Lemma list_has_no_effect_witness :
  (fst (Api.handler Json.parse (Samples.api "GET" []) Seeded.expenses)
   = Seeded.expenses
   /\ Seeded.body
        (snd (Api.handler Json.parse (Samples.api "GET" []) Seeded.expenses))
      = Seeded.PList [Samples.streaming; Samples.groceries] 2)
  /\ fst (Strict.handler (Samples.strict "GET" VUndefined) Seeded.expenses)
     = Seeded.expenses
  /\ fst (Timestamped.handler (Samples.timestamped "GET" VUndefined)
                              [Samples.coffee_stamped])
     = [Samples.coffee_stamped].
Proof.
  destruct list_has_no_effect as [A [S T]].
  repeat apply conj.
  - apply (A Json.parse (Samples.api "GET" []) Seeded.expenses eq_refl).
  - apply (A Json.parse (Samples.api "GET" []) Seeded.expenses eq_refl).
  - apply (S (Samples.strict "GET" VUndefined) Seeded.expenses eq_refl).
  - apply (T (Samples.timestamped "GET" VUndefined) [Samples.coffee_stamped]
             eq_refl).
Defined.

(** ** C10: defaults on falsy values *)



(** * Further properties of the handlers *)

(** ** Reading the body (src/api/expenses.js, [parseBody]) *)

Module BodyFacts.
Import Api.


Lemma append_empty (a : string) : a ++ EmptyString = a.
Proof.
  induction a as [| x a IH]; cbn; [reflexivity | now rewrite IH].
Qed.



End BodyFacts.



(** ** When a create throws *)







(** ** Methods *)

Module MethodFacts.

Lemma eqb_neq (a b : string) : a <> b -> (a =? b)%string = false.
Proof. intros H. now apply String.eqb_neq. Qed.

End MethodFacts.

(** A method the handler does not serve is answered 405, naming the
    method, and nothing else is: in src/api/expenses.js the methods
    served are OPTIONS, GET and POST; in the four-field handler GET and
    POST only, so that an OPTIONS preflight is answered 405; in the
    [module.exports] handler OPTIONS, GET and POST, and the 405 is a
    plain text.  The array is left as it was. *)
Theorem not_allowed_iff_unserved_method :
  (forall (JSON_parse : string -> option value) (req : Api.request)
          (expenses : list Seeded.expense),
      (Api.method req <> "OPTIONS" -> Api.method req <> "GET" ->
       Api.method req <> "POST" ->
       Api.handler JSON_parse req expenses
       = (expenses,
          Seeded.sendResponse 405
            (Seeded.PError ("Method " ++ Api.method req ++ " Not Allowed"))))
      /\ (Seeded.statusCode (snd (Api.handler JSON_parse req expenses)) = 405 ->
          Api.method req <> "OPTIONS" /\ Api.method req <> "GET"
          /\ Api.method req <> "POST"))
  /\ (forall (req : Strict.request) (expenses : list Seeded.expense),
         (Strict.method req <> "GET" -> Strict.method req <> "POST" ->
          Strict.handler req expenses
          = (expenses,
             Seeded.sendResponse 405
               (Seeded.PError
                  ("Method " ++ Strict.method req ++ " Not Allowed"))))
         /\ (Seeded.statusCode (snd (Strict.handler req expenses)) = 405 ->
             Strict.method req <> "GET" /\ Strict.method req <> "POST"))
  /\ (forall (req : Timestamped.request) (expenses : list Timestamped.expense),
         (Timestamped.method req <> "OPTIONS" ->
          Timestamped.method req <> "GET" ->
          Timestamped.method req <> "POST" ->
          Timestamped.handler req expenses
          = (expenses,
             Normal {| Timestamped.statusCode := 405;
                       Timestamped.sent :=
                         Timestamped.PText "Method Not Allowed" |}))
         /\ (Timestamped.status (snd (Timestamped.handler req expenses))
             = Some 405 ->
             Timestamped.method req <> "OPTIONS"
             /\ Timestamped.method req <> "GET"
             /\ Timestamped.method req <> "POST")).
Proof.
  split; [| split].
  - intros JSON_parse req expenses. split.
    + intros Ho Hg Hp. unfold Api.handler.
      now rewrite (MethodFacts.eqb_neq _ _ Ho), (MethodFacts.eqb_neq _ _ Hg),
        (MethodFacts.eqb_neq _ _ Hp).
    + unfold Api.handler.
      destruct (Api.method req =? "OPTIONS")%string eqn:Ho; [discriminate |].
      destruct (Api.method req =? "GET")%string eqn:Hg; [discriminate |].
      destruct (Api.method req =? "POST")%string eqn:Hp.
      * destruct (ApiFacts.api_post_outcome
                    req (Api.parseBody JSON_parse req) expenses)
          as [[sent [-> Hc]] | [[e ->] | [r [message [-> _]]]]];
          cbn; intros; try discriminate; congruence.
      * intros _. apply String.eqb_neq in Ho, Hg, Hp. auto.
  - intros req expenses. split.
    + intros Hg Hp. unfold Strict.handler.
      now rewrite (MethodFacts.eqb_neq _ _ Hg), (MethodFacts.eqb_neq _ _ Hp).
    + unfold Strict.handler.
      destruct (Strict.method req =? "GET")%string eqn:Hg; [discriminate |].
      destruct (Strict.method req =? "POST")%string eqn:Hp.
      * destruct (StrictFacts.strict_post_outcome req expenses)
          as [[sent [-> Hc]] | [[e ->] | [r [message [-> _]]]]];
          cbn; intros; try discriminate; congruence.
      * intros _. apply String.eqb_neq in Hg, Hp. auto.
  - intros req expenses. split.
    + intros Ho Hg Hp. unfold Timestamped.handler.
      now rewrite (MethodFacts.eqb_neq _ _ Ho), (MethodFacts.eqb_neq _ _ Hg),
        (MethodFacts.eqb_neq _ _ Hp).
    + unfold Timestamped.handler.
      destruct (Timestamped.method req =? "OPTIONS")%string eqn:Ho;
        [discriminate |].
      destruct (Timestamped.method req =? "GET")%string eqn:Hg;
        [discriminate |].
      destruct (Timestamped.method req =? "POST")%string eqn:Hp.
      * unfold Eff.bind, Eff.lift, Eff.read, Eff.push, Eff.ret.
        destruct (get _ "description"); [| discriminate].
        destruct (get _ "amount"); [| discriminate].
        destruct (get _ "date"); [| discriminate].
        destruct (negb _ || negb _); discriminate.
      * intros _. apply String.eqb_neq in Ho, Hg, Hp. auto.
Qed.

Lemma not_allowed_iff_unserved_method_witness :
  Api.handler Json.parse (Samples.api "DELETE" []) Seeded.expenses
  = (Seeded.expenses,
     Seeded.sendResponse 405 (Seeded.PError "Method DELETE Not Allowed"))
  /\ Strict.handler (Samples.strict "OPTIONS" VUndefined) Seeded.expenses
     = (Seeded.expenses,
        Seeded.sendResponse 405 (Seeded.PError "Method OPTIONS Not Allowed"))
  /\ Timestamped.handler (Samples.timestamped "get" VUndefined)
                         [Samples.coffee_stamped]
     = ([Samples.coffee_stamped],
        Normal {| Timestamped.statusCode := 405;
                  Timestamped.sent :=
                    Timestamped.PText "Method Not Allowed" |})
  /\ (Api.method (Samples.api "PATCH" []) <> "OPTIONS"
      /\ Api.method (Samples.api "PATCH" []) <> "GET"
      /\ Api.method (Samples.api "PATCH" []) <> "POST")
  /\ (Strict.method (Samples.strict "PUT" VNull) <> "GET"
      /\ Strict.method (Samples.strict "PUT" VNull) <> "POST")
  /\ (Timestamped.method (Samples.timestamped "HEAD" VNull) <> "OPTIONS"
      /\ Timestamped.method (Samples.timestamped "HEAD" VNull) <> "GET"
      /\ Timestamped.method (Samples.timestamped "HEAD" VNull) <> "POST").
Proof.
  destruct not_allowed_iff_unserved_method as [A [S T]].
  repeat apply conj.
  - apply (proj1 (A Json.parse (Samples.api "DELETE" []) Seeded.expenses));
      discriminate.
  - apply (proj1 (S (Samples.strict "OPTIONS" VUndefined) Seeded.expenses));
      discriminate.
  - apply (proj1 (T (Samples.timestamped "get" VUndefined)
                    [Samples.coffee_stamped]));
      discriminate.
  - apply (proj2 (A Json.parse (Samples.api "PATCH" []) Seeded.expenses)
                 eq_refl).
  - apply (proj2 (A Json.parse (Samples.api "PATCH" []) Seeded.expenses)
                 eq_refl).
  - apply (proj2 (A Json.parse (Samples.api "PATCH" []) Seeded.expenses)
                 eq_refl).
  - apply (proj2 (S (Samples.strict "PUT" VNull) Seeded.expenses) eq_refl).
  - apply (proj2 (S (Samples.strict "PUT" VNull) Seeded.expenses) eq_refl).
  - apply (proj2 (T (Samples.timestamped "HEAD" VNull) []) eq_refl).
  - apply (proj2 (T (Samples.timestamped "HEAD" VNull) []) eq_refl).
  - apply (proj2 (T (Samples.timestamped "HEAD" VNull) []) eq_refl).
Defined.

(** ** The array over a run of requests *)

Module RunFacts.

Section AppendOnly.

Variables (R E : Type).
Variable step : R -> list E -> list E.

Hypothesis step_appends : forall req s,
  step req s = s \/ exists r, step req s = (s ++ [r])%list.

Lemma run_appends (reqs : list R) (s : list E) :
  exists added,
    fold_left (fun s req => step req s) reqs s = (s ++ added)%list
    /\ (List.length added <= List.length reqs)%nat.
Proof.
  revert s. induction reqs as [| req reqs IH]; intros s; cbn [fold_left].
  - exists []. split; [now rewrite app_nil_r | cbn; lia].
  - destruct (IH (step req s)) as [added [E1 Hlen]]. rewrite E1.
    destruct (step_appends req s) as [-> | [r ->]].
    + exists added. split; [reflexivity | cbn; lia].
    + exists (r :: added). split; [now rewrite <- app_assoc | cbn; lia].
Qed.

End AppendOnly.

End RunFacts.

(** Whatever requests are served, in whatever order, the array they
    leave is the array they found with records added at its end: no
    record is ever removed, moved or changed, and a run adds no more
    records than it has requests.  This holds for each of the three
    handlers. *)
Theorem array_only_grows :
  (forall (JSON_parse : string -> option value) (reqs : list Api.request)
          (expenses : list Seeded.expense),
      exists added,
        Api.serve JSON_parse reqs expenses = (expenses ++ added)%list
        /\ (List.length added <= List.length reqs)%nat)
  /\ (forall (reqs : list Strict.request) (expenses : list Seeded.expense),
         exists added,
           Strict.serve reqs expenses = (expenses ++ added)%list
           /\ (List.length added <= List.length reqs)%nat)
  /\ (forall (reqs : list Timestamped.request)
             (expenses : list Timestamped.expense),
         exists added,
           Support.serve_timestamped reqs expenses = (expenses ++ added)%list
           /\ (List.length added <= List.length reqs)%nat).
Proof.
  split; [| split].
  - intros J reqs expenses.
    apply (RunFacts.run_appends _ _ (fun req s => fst (Api.handler J req s))).
    intros req s.
    destruct (ApiFacts.api_handler_outcome J req s)
      as [[E _] | [r [message [E _]]]]; [now left |].
    right. exists r. now rewrite E.
  - intros reqs expenses.
    apply (RunFacts.run_appends _ _ (fun req s => fst (Strict.handler req s))).
    intros req s.
    destruct (StrictFacts.strict_handler_outcome req s)
      as [[E _] | [r [message [E _]]]]; [now left |].
    right. exists r. now rewrite E.
  - intros reqs expenses.
    apply (RunFacts.run_appends
             _ _ (fun req s => fst (Timestamped.handler req s))).
    intros req s.
    destruct (TimestampedFacts.handler_outcome req s)
      as [[resp [E _]] | [[e E] | [r [E _]]]]; rewrite E; cbn [fst]; eauto.
Qed.

(** ** What a create reads of its body *)

(** A create reads its body only under [amount], [description],
    [category] and [date] (the [module.exports] handler: [description],
    [amount] and [date]).  Two bodies that agree there are treated alike:
    the order of the keys does not matter, and any other key, an [id] of
    the client's own included, is dropped. *)
Theorem only_named_fields_are_read :
  (forall (req : Api.request) (props props' : list (string * value))
          (expenses : list Seeded.expense),
      (forall k, In k ["amount"; "description"; "category"; "date"] ->
                 lookup k props = lookup k props') ->
      Api.handlePOST req (VObject props) expenses
      = Api.handlePOST req (VObject props') expenses)
  /\ (forall (req req' : Strict.request) (props props' : list (string * value))
             (expenses : list Seeded.expense),
         Strict.body req = VObject props ->
         Strict.body req' = VObject props' ->
         (forall k, In k ["amount"; "description"; "category"; "date"] ->
                    lookup k props = lookup k props') ->
         Strict.handlePOST req expenses = Strict.handlePOST req' expenses)
  /\ (forall (req req' : Timestamped.request)
             (props props' : list (string * value))
             (expenses : list Timestamped.expense),
         Timestamped.method req = "POST" ->
         Timestamped.method req' = "POST" ->
         Timestamped.now req = Timestamped.now req' ->
         Timestamped.body req = VObject props ->
         Timestamped.body req' = VObject props' ->
         (forall k, In k ["description"; "amount"; "date"] ->
                    lookup k props = lookup k props') ->
         Timestamped.handler req expenses = Timestamped.handler req' expenses).
Proof.
  split; [| split].
  - intros req props props' expenses Hag.
    rewrite !ApiFacts.api_post_object. cbv zeta.
    unfold Api.requiredFields. cbn [List.filter]. unfold own, prop.
    rewrite !(Hag "amount"), !(Hag "description"), !(Hag "category"),
      !(Hag "date") by (cbn; auto).
    reflexivity.
  - intros req req' props props' expenses Hb Hb' Hag.
    rewrite (StrictFacts.strict_post_object req props expenses Hb),
      (StrictFacts.strict_post_object req' props' expenses Hb').
    cbv zeta. unfold Strict.requiredFields. cbn [List.filter].
    unfold own, prop.
    rewrite !(Hag "amount"), !(Hag "description"), !(Hag "category"),
      !(Hag "date") by (cbn; auto).
    reflexivity.
  - intros req req' props props' expenses Hm Hm' Hn Hb Hb' Hag.
    rewrite (TimestampedFacts.post_object req props expenses Hm Hb),
      (TimestampedFacts.post_object req' props' expenses Hm' Hb').
    cbv zeta. unfold prop.
    rewrite !(Hag "amount"), !(Hag "description"), !(Hag "date"), Hn
      by (cbn; auto).
    reflexivity.
Qed.

Lemma only_named_fields_are_read_witness :
  Api.handlePOST (Samples.api "POST" []) Support.decorated Seeded.expenses
  = Api.handlePOST (Samples.api "POST" []) Support.plain Seeded.expenses
  /\ Strict.handlePOST (Samples.strict "POST" Support.decorated) Seeded.expenses
     = Strict.handlePOST (Samples.strict "POST" Support.plain) Seeded.expenses
  /\ Timestamped.handler (Samples.timestamped "POST" Support.decorated) []
     = Timestamped.handler (Samples.timestamped "POST" Support.plain) []
  /\ map Seeded.id
         (fst (Api.handlePOST (Samples.api "POST" []) Support.decorated
                              Seeded.expenses))
     = [1; 2; 3].
Proof.
  assert (Hag : forall k,
             In k ["amount"; "description"; "category"; "date"] ->
             lookup k [("id", VNumber (of_Z 99)); ("note", VString "extra");
                       ("date", VString "2025-11-30");
                       ("category", VString "Drinks");
                       ("description", VString "Coffee");
                       ("amount", VNumber (of_Z 20))]
             = lookup k [("amount", VNumber (of_Z 20));
                         ("description", VString "Coffee");
                         ("category", VString "Drinks");
                         ("date", VString "2025-11-30")]).
  { intros k [<- | [<- | [<- | [<- | []]]]]; reflexivity. }
  destruct only_named_fields_are_read as [A [S T]].
  repeat apply conj.
  - exact (A (Samples.api "POST" []) _ _ Seeded.expenses Hag).
  - exact (S (Samples.strict "POST" Support.decorated)
             (Samples.strict "POST" Support.plain)
             _ _ Seeded.expenses eq_refl eq_refl Hag).
  - refine (T (Samples.timestamped "POST" Support.decorated)
              (Samples.timestamped "POST" Support.plain)
              _ _ [] eq_refl eq_refl eq_refl eq_refl eq_refl _).
    intros k Hk. apply Hag. cbn in Hk. cbn. intuition.
  - reflexivity.
Defined.

(** ** What a 201 means *)

(** A request is answered 201 only if it is a POST, and then exactly one
    record was appended and the response carries that very record under
    the success message; a request answered anything else left the array
    as it was.  This holds for each of the three handlers. *)
Theorem created_iff_appended :
  (forall (JSON_parse : string -> option value) (req : Api.request)
          (expenses : list Seeded.expense),
      (Seeded.statusCode (snd (Api.handler JSON_parse req expenses)) = 201 ->
       Api.method req = "POST"
       /\ exists r,
            Api.handler JSON_parse req expenses
            = ((expenses ++ [r])%list,
               Seeded.sendResponse 201
                 (Seeded.PCreated "Expense added successfully" r)))
      /\ (Seeded.statusCode (snd (Api.handler JSON_parse req expenses)) <> 201 ->
          fst (Api.handler JSON_parse req expenses) = expenses))
  /\ (forall (req : Strict.request) (expenses : list Seeded.expense),
         (Seeded.statusCode (snd (Strict.handler req expenses)) = 201 ->
          Strict.method req = "POST"
          /\ exists r,
               Strict.handler req expenses
               = ((expenses ++ [r])%list,
                  Seeded.sendResponse 201
                    (Seeded.PCreated "Expense added successfully" r)))
         /\ (Seeded.statusCode (snd (Strict.handler req expenses)) <> 201 ->
             fst (Strict.handler req expenses) = expenses))
  /\ (forall (req : Timestamped.request) (expenses : list Timestamped.expense),
         (Timestamped.status (snd (Timestamped.handler req expenses))
          = Some 201 ->
          Timestamped.method req = "POST"
          /\ exists r,
               Timestamped.handler req expenses
               = ((expenses ++ [r])%list,
                  Normal {| Timestamped.statusCode := 201;
                            Timestamped.sent :=
                              Timestamped.PCreated
                                "Expense added successfully (In-memory, NOT persistent on Vercel)."
                                r |}))
         /\ (Timestamped.status (snd (Timestamped.handler req expenses))
             <> Some 201 ->
             fst (Timestamped.handler req expenses) = expenses)).
Proof.
  split; [| split].
  - intros J req expenses. split.
    + unfold Api.handler.
      destruct (Api.method req =? "OPTIONS")%string; [discriminate |].
      destruct (Api.method req =? "GET")%string; [discriminate |].
      destruct (Api.method req =? "POST")%string eqn:Hm; [| discriminate].
      apply String.eqb_eq in Hm. intros Hs. split; [exact Hm |].
      destruct (Api.parseBody J req) as [| | b | x | s | elems | props];
        try (match goal with
             | |- context [Api.handlePOST req ?b expenses] =>
                 destruct (ApiFacts.api_post_throws req b expenses) as [e E];
                 [intros ?; discriminate | intros ?; discriminate
                  | rewrite E in Hs; cbn in Hs; discriminate Hs]
             end).
      all: try (rewrite ApiFacts.api_post_array in Hs; discriminate Hs).
      rewrite ApiFacts.api_post_object in *. cbv zeta in *.
      destruct (0 <? _)%nat; [discriminate Hs |].
      destruct (isNaN _ || le _ zero); [discriminate Hs |].
      eexists. reflexivity.
    + intros Hs.
      destruct (ApiFacts.api_handler_outcome J req expenses)
        as [[E _] | [r [message [E _]]]]; [exact E |].
      rewrite E in Hs. now destruct Hs.
  - intros req expenses. split.
    + unfold Strict.handler.
      destruct (Strict.method req =? "GET")%string; [discriminate |].
      destruct (Strict.method req =? "POST")%string eqn:Hm; [| discriminate].
      apply String.eqb_eq in Hm. intros Hs. split; [exact Hm |].
      destruct (Strict.body req) as [| | b | x | s | elems | props] eqn:Hb;
        try (destruct (StrictFacts.strict_post_throws req expenses) as [e E];
             [rewrite Hb; intros ?; discriminate
              | rewrite Hb; intros ?; discriminate
              | rewrite E in Hs; cbn in Hs; discriminate Hs]).
      all: try (rewrite (StrictFacts.strict_post_array req _ expenses Hb) in Hs;
                discriminate Hs).
      rewrite (StrictFacts.strict_post_object req props expenses Hb) in *.
      cbv zeta in *.
      destruct (0 <? _)%nat; [discriminate Hs |].
      destruct (isNaN _ || le _ zero); [discriminate Hs |].
      eexists. reflexivity.
    + intros Hs.
      destruct (StrictFacts.strict_handler_outcome req expenses)
        as [[E _] | [r [message [E _]]]]; [exact E |].
      rewrite E in Hs. now destruct Hs.
  - intros req expenses.
    destruct (TimestampedFacts.handler_outcome req expenses)
      as [[resp [E Hc]] | [[e E] | [r [E [Hm _]]]]]; rewrite E; cbn; split;
      try discriminate; try reflexivity.
    + intros Hs. injection Hs as Hs. contradiction.
    + intros _. split; [exact Hm |]. now exists r.
    + intros Hs. now destruct Hs.
Qed.

Lemma created_iff_appended_witness :
  (Api.method (Samples.api "POST" [Samples.coffee_text]) = "POST"
   /\ exists r,
        Api.handler Json.parse (Samples.api "POST" [Samples.coffee_text])
                    Seeded.expenses
        = ((Seeded.expenses ++ [r])%list,
           Seeded.sendResponse 201
             (Seeded.PCreated "Expense added successfully" r)))
  /\ fst (Api.handler Json.parse (Samples.api "OPTIONS" []) Seeded.expenses)
     = Seeded.expenses
  /\ (Strict.method (Samples.strict "POST" Samples.full) = "POST"
      /\ exists r,
           Strict.handler (Samples.strict "POST" Samples.full) Seeded.expenses
           = ((Seeded.expenses ++ [r])%list,
              Seeded.sendResponse 201
                (Seeded.PCreated "Expense added successfully" r)))
  /\ fst (Strict.handler (Samples.strict "GET" VUndefined) Seeded.expenses)
     = Seeded.expenses
  /\ (Timestamped.method (Samples.timestamped "POST" Samples.coffee) = "POST"
      /\ exists r,
           Timestamped.handler (Samples.timestamped "POST" Samples.coffee) []
           = (([] ++ [r])%list,
              Normal {| Timestamped.statusCode := 201;
                        Timestamped.sent :=
                          Timestamped.PCreated
                            "Expense added successfully (In-memory, NOT persistent on Vercel)."
                            r |}))
  /\ fst (Timestamped.handler (Samples.timestamped "OPTIONS" VUndefined)
                              [Samples.coffee_stamped])
     = [Samples.coffee_stamped].
Proof.
  destruct created_iff_appended as [A [S T]].
  split; [| split; [| split; [| split; [| split]]]].
  - exact (proj1 (A Json.parse (Samples.api "POST" [Samples.coffee_text])
                    Seeded.expenses) eq_refl).
  - apply (proj2 (A Json.parse (Samples.api "OPTIONS" []) Seeded.expenses)).
    discriminate.
  - exact (proj1 (S (Samples.strict "POST" Samples.full) Seeded.expenses)
                 eq_refl).
  - apply (proj2 (S (Samples.strict "GET" VUndefined) Seeded.expenses)).
    discriminate.
  - exact (proj1 (T (Samples.timestamped "POST" Samples.coffee) []) eq_refl).
  - apply (proj2 (T (Samples.timestamped "OPTIONS" VUndefined)
                    [Samples.coffee_stamped])).
    discriminate.
Defined.

(** ** What a create stores of its body *)

Module StoreFacts.



End StoreFacts.





(** ** Ids of the [module.exports] handler *)

Module IdFacts.

(** Printing an integer and reading the digits back gives the integer. *)
Lemma read_printed (n : Z) : Support.read_id (int_to_string n) = Some n.
Proof.
  unfold Support.read_id, int_to_string.
  rewrite NilEmpty.isi. cbn [option_map]. now rewrite DecimalZ.of_to.
Qed.

End IdFacts.

(** The id the [module.exports] handler gives a record is the clock
    reading of its creation, in decimal: read back as an integer it is
    the millisecond at which the create was served. *)
Theorem id_reads_back_as_creation_time :
  forall (req : Timestamped.request) (expenses : list Timestamped.expense),
    Timestamped.status (snd (Timestamped.handler req expenses)) = Some 201 ->
    exists r,
      fst (Timestamped.handler req expenses) = (expenses ++ [r])%list
      /\ Support.read_id (Timestamped.id r) = Some (Timestamped.now req).
Proof.
  intros req expenses Hs.
  destruct (TimestampedFacts.created_at_clock req expenses Hs) as [r [E Hr]].
  exists r. split; [exact E |]. rewrite Hr. apply IdFacts.read_printed.
Qed.

Lemma id_reads_back_as_creation_time_witness :
  exists r,
    fst (Timestamped.handler (Samples.timestamped "POST" Samples.coffee)
                             [Samples.coffee_stamped])
    = ([Samples.coffee_stamped] ++ [r])%list
    /\ Support.read_id (Timestamped.id r) = Some 1764547200000.
Proof.
  exact (id_reads_back_as_creation_time
           (Samples.timestamped "POST" Samples.coffee)
           [Samples.coffee_stamped] eq_refl).
Defined.

(** ** The two seeded handlers side by side *)

(** On a body that has all four fields, with a truthy category and a
    truthy date, the create of src/api/expenses.js and the create of the
    four-field handler do the same: the same answer (201, or 400 for the
    amount) and the same array. *)
Theorem seeded_creates_agree_on_full_bodies :
  forall (api_req : Api.request) (strict_req : Strict.request)
         (props : list (string * value)) (expenses : list Seeded.expense),
    Strict.body strict_req = VObject props ->
    (forall f, In f Strict.requiredFields -> own f props = true) ->
    truthy (prop "category" props) = true ->
    truthy (prop "date" props) = true ->
    Api.handlePOST api_req (VObject props) expenses
    = Strict.handlePOST strict_req expenses.
Proof.
  intros api_req strict_req props expenses Hb Hall Hc Ht.
  rewrite ApiFacts.api_post_object,
    (StrictFacts.strict_post_object strict_req props expenses Hb).
  cbv zeta. unfold Api.requiredFields, Strict.requiredFields.
  cbn [List.filter].
  rewrite !Hall by (unfold Strict.requiredFields; cbn; auto).
  cbn [negb List.length Nat.ltb Nat.leb].
  now rewrite (JSFacts.truthy_or _ _ Hc), (JSFacts.truthy_or _ _ Ht).
Qed.

Lemma seeded_creates_agree_on_full_bodies_witness :
  Api.handlePOST (Samples.api "POST" []) Samples.full Seeded.expenses
  = Strict.handlePOST (Samples.strict "POST" Samples.full) Seeded.expenses.
Proof.
  refine (seeded_creates_agree_on_full_bodies
            (Samples.api "POST" []) (Samples.strict "POST" Samples.full)
            [("amount", Samples.twenty); ("description", VString "Coffee");
             ("category", VString "Food"); ("date", VString "2025-11-30")]
            Seeded.expenses eq_refl _ eq_refl eq_refl).
  intros f [<- | [<- | [<- | [<- | []]]]]; reflexivity.
Defined.

(** ** The default date *)

Module DateFacts.
Import Support.

Lemma occurs_app (c : ascii) (a b : string) :
  occurs c (a ++ b) = occurs c a || occurs c b.
Proof.
  induction a as [| x a IH]; cbn; [reflexivity |].
  now rewrite IH, orb_assoc.
Qed.

Lemma before_app (c : ascii) (a b : string) :
  occurs c a = false -> before c (a ++ b) = a ++ before c b.
Proof.
  induction a as [| x a IH]; cbn; [reflexivity |].
  intros H. apply orb_false_iff in H. destruct H as [Hx Ha].
  rewrite Hx. now rewrite IH.
Qed.

Lemma no_T_in_digits (u : Decimal.uint) :
  occurs "T" (NilEmpty.string_of_uint u) = false.
Proof.
  induction u; cbn; auto.
Qed.

Lemma no_T_in_zeros (n : nat) :
  occurs "T" (string_of_list_ascii (repeat "0"%char n)) = false.
Proof.
  induction n; cbn; auto.
Qed.

Lemma no_T_in_padded (w : nat) (k : Z) : occurs "T" (pad_zeros w (decimal k)) = false.
Proof.
  unfold pad_zeros, decimal.
  now rewrite occurs_app, no_T_in_zeros, no_T_in_digits.
Qed.

(** The year as [toISOString] prints it. *)
Lemma no_T_in_year (y : Z) :
  occurs "T"
    (if (0 <=? y) && (y <=? 9999) then pad_zeros 4 (decimal y)
     else (if y <? 0 then "-" else "+") ++ pad_zeros 6 (decimal (Z.abs y)))
  = false.
Proof.
  destruct ((0 <=? y) && (y <=? 9999)); [apply no_T_in_padded |].
  rewrite occurs_app, no_T_in_padded. now destruct (y <? 0).
Qed.

(** What [today] comes to: the date part alone, a function of the day. *)
Lemma today_of_day (t : Z) :
  today t
  = let '(y, m, d) := civil_from_days (t / msPerDay) in
    (if (0 <=? y) && (y <=? 9999) then pad_zeros 4 (decimal y)
     else (if y <? 0 then "-" else "+") ++ pad_zeros 6 (decimal (Z.abs y)))
    ++ "-" ++ pad_zeros 2 (decimal m) ++ "-" ++ pad_zeros 2 (decimal d).
Proof.
  unfold today, toISOString.
  destruct (civil_from_days (t / msPerDay)) as [[y m] d]. cbv zeta.
  rewrite before_app by apply no_T_in_year.
  rewrite (before_app _ "-") by reflexivity.
  rewrite before_app by apply no_T_in_padded.
  rewrite (before_app _ "-") by reflexivity.
  rewrite before_app by apply no_T_in_padded.
  cbn [before append Ascii.eqb Bool.eqb].
  now rewrite BodyFacts.append_empty.
Qed.

End DateFacts.

(** The default date depends on the clock only through the UTC day: two
    creates served within the same day are given the same default
    date. *)
Theorem default_date_is_per_day :
  forall t1 t2 : Z,
    t1 / msPerDay = t2 / msPerDay -> today t1 = today t2.
Proof.
  intros t1 t2 H. rewrite !DateFacts.today_of_day. now rewrite H.
Qed.

Lemma default_date_is_per_day_witness :
  today 1764547200000 = today 1764633599999.
Proof.
  apply default_date_is_per_day. reflexivity.
Defined.

Module ShapeFacts.
Import Support.

Lemma all_from_spec (count : nat) (start : Z) (p : Z -> bool) :
  all_from count start p = true ->
  forall k, start <= k < start + Z.of_nat count -> p k = true.
Proof.
  revert start. induction count as [| n IH]; intros start H k Hk.
  - lia.
  - cbn [all_from] in H. apply andb_true_iff in H. destruct H as [H0 Hn].
    destruct (Z.eq_dec k start) as [-> | Hne]; [exact H0 |].
    apply (IH (start + 1) Hn). lia.
Qed.

(** [civil_from_days] works era by era. *)
Lemma civil_by_era (z : Z) :
  civil_from_days z
  = let '(yc, m, d) := within_era ((z + 719468) mod 146097) in
    (yc + (z + 719468) / 146097 * 400, m, d).
Proof.
  unfold civil_from_days, within_era. cbv zeta.
  replace (z + 719468 - (z + 719468) / 146097 * 146097)
    with ((z + 719468) mod 146097)
    by (rewrite Z.mod_eq by lia; ring).
  f_equal. f_equal. ring.
Qed.

(** Every day of an era, checked one by one: the month is 1..12, the day
    1..31, the year 0..400 within the era, and at most 399 up to the day
    that is 31 December of a year 9999. *)
Lemma era_checked :
  all_from (Z.to_nat 146097) 0
    (fun doe =>
       let '(yc, m, d) := within_era doe in
       (1 <=? m) && (m <=? 12) && (1 <=? d) && (d <=? 31)
       && (0 <=? yc) && (yc <=? 400)
       && ((146036 <? doe) || (yc <=? 399)))
  = true.
Proof. vm_compute. reflexivity. Qed.

Lemma years_checked :
  all_from (Z.to_nat 10000) 0
    (fun y => all_digits 4 (pad_zeros 4 (decimal y))) = true.
Proof. vm_compute. reflexivity. Qed.

Lemma months_and_days_checked :
  all_from 32 0 (fun k => all_digits 2 (pad_zeros 2 (decimal k))) = true.
Proof. vm_compute. reflexivity. Qed.

Lemma shape_of_parts (y m d : string) :
  all_digits 4 y = true ->
  all_digits 2 m = true ->
  all_digits 2 d = true ->
  is_iso_date (y ++ "-" ++ m ++ "-" ++ d) = true.
Proof.
  intros Hy Hm Hd.
  destruct y as [| y1 [| y2 [| y3 [| y4 [| ? ?]]]]]; cbn in Hy;
    try discriminate; try (repeat (apply andb_true_iff in Hy; destruct Hy as [? Hy]); discriminate).
  destruct m as [| m1 [| m2 [| ? ?]]]; cbn in Hm;
    try discriminate; try (repeat (apply andb_true_iff in Hm; destruct Hm as [? Hm]); discriminate).
  destruct d as [| d1 [| d2 [| ? ?]]]; cbn in Hd;
    try discriminate; try (repeat (apply andb_true_iff in Hd; destruct Hd as [? Hd]); discriminate).
  unfold is_iso_date. cbn -[is_digit].
  rewrite !andb_true_r in *.
  apply andb_true_iff in Hy. destruct Hy as [Hy1 Hy].
  apply andb_true_iff in Hy. destruct Hy as [Hy2 Hy].
  apply andb_true_iff in Hy. destruct Hy as [Hy3 Hy4].
  apply andb_true_iff in Hm. destruct Hm as [Hm1 Hm2].
  apply andb_true_iff in Hd. destruct Hd as [Hd1 Hd2].
  now rewrite Hy1, Hy2, Hy3, Hy4, Hm1, Hm2, Hd1, Hd2.
Qed.

End ShapeFacts.

(** From 1970 to the end of the year 9999 the default date has the shape
    YYYY-MM-DD: ten characters, digits but for the two hyphens. *)
Theorem default_date_is_well_formed :
  forall t : Z,
    0 <= t <= Support.last_four_digit_ms ->
    Support.is_iso_date (today t) = true.
Proof.
  intros t Ht. unfold Support.last_four_digit_ms in Ht.
  rewrite DateFacts.today_of_day, ShapeFacts.civil_by_era.
  set (z := t / msPerDay + 719468).
  assert (Hz : 719468 <= z <= 3652364).
  { unfold z, msPerDay.
    assert (0 <= t / 86400000 < 2932897); [| lia].
    split; [apply Z.div_pos; lia |].
    apply Z.div_lt_upper_bound; lia. }
  assert (Hera : 4 <= z / 146097 < 25).
  { split; [apply Z.div_le_lower_bound; lia |].
    apply Z.div_lt_upper_bound; lia. }
  assert (Hdoe : 0 <= z mod 146097 < 146097) by (apply Z.mod_pos_bound; lia).
  assert (Hlast : z / 146097 = 24 -> z mod 146097 <= 146036).
  { intros E. rewrite Z.mod_eq, E by lia. lia. }
  pose proof (ShapeFacts.all_from_spec _ _ _ ShapeFacts.era_checked
                (z mod 146097)) as Hchk.
  cbv beta in Hchk. specialize (Hchk ltac:(lia)).
  destruct (Support.within_era (z mod 146097)) as [[yc m] d].
  repeat (apply andb_true_iff in Hchk; destruct Hchk as [Hchk ?]).
  assert (Hyc : z / 146097 = 24 -> yc <= 399).
  { intros E. specialize (Hlast E).
    match goal with
    | H : (_ <? _) || (_ <=? _) = true |- _ =>
        apply orb_true_iff in H; destruct H as [H | H]; lia
    end. }
  assert (Hy : 0 <= yc + z / 146097 * 400 <= 9999) by lia.
  replace ((0 <=? yc + z / 146097 * 400) && (yc + z / 146097 * 400 <=? 9999))
    with true by (symmetry; apply andb_true_iff; lia).
  apply ShapeFacts.shape_of_parts.
  - apply (ShapeFacts.all_from_spec _ _ _ ShapeFacts.years_checked). lia.
  - apply (ShapeFacts.all_from_spec _ _ _ ShapeFacts.months_and_days_checked).
    lia.
  - apply (ShapeFacts.all_from_spec _ _ _ ShapeFacts.months_and_days_checked).
    lia.
Qed.

Lemma default_date_is_well_formed_witness :
  Support.is_iso_date (today 1764547200000) = true.
Proof.
  apply default_date_is_well_formed.
  unfold Support.last_four_digit_ms. lia.
Defined.

(** ** The preflight *)

(** An OPTIONS request is answered at once, before the body is read or
    the array looked at: src/api/expenses.js answers 204 with [null], the
    [module.exports] handler 200 with nothing, whatever the body, and
    the array is left as it was.  No other method is answered so. *)
Theorem preflight_is_answered_empty :
  (forall (JSON_parse : string -> option value) (req : Api.request)
          (expenses : list Seeded.expense),
      (Api.method req = "OPTIONS" ->
       Api.handler JSON_parse req expenses
       = (expenses, Seeded.sendResponse 204 Seeded.PNull))
      /\ (Seeded.statusCode (snd (Api.handler JSON_parse req expenses)) = 204 ->
          Api.method req = "OPTIONS"))
  /\ (forall (req : Timestamped.request) (expenses : list Timestamped.expense),
         (Timestamped.method req = "OPTIONS" ->
          Timestamped.handler req expenses
          = (expenses,
             Normal {| Timestamped.statusCode := 200;
                       Timestamped.sent := Timestamped.PEnd |}))
         /\ (forall code,
               snd (Timestamped.handler req expenses)
               = Normal {| Timestamped.statusCode := code;
                           Timestamped.sent := Timestamped.PEnd |} ->
               Timestamped.method req = "OPTIONS")).
Proof.
  split.
  - intros J req expenses. split.
    + intros Hm. unfold Api.handler. now rewrite Hm.
    + unfold Api.handler.
      destruct (Api.method req =? "OPTIONS")%string eqn:Ho;
        [intros _; now apply String.eqb_eq |].
      destruct (Api.method req =? "GET")%string; [discriminate |].
      destruct (Api.method req =? "POST")%string; [| discriminate].
      destruct (ApiFacts.api_post_outcome req (Api.parseBody J req) expenses)
        as [[sent [-> Hc]] | [[e ->] | [r [message [-> _]]]]];
        cbn; intros; try discriminate; congruence.
  - intros req expenses. split.
    + intros Hm. unfold Timestamped.handler. now rewrite Hm.
    + intros code. unfold Timestamped.handler.
      destruct (Timestamped.method req =? "OPTIONS")%string eqn:Ho;
        [intros _; now apply String.eqb_eq |].
      destruct (Timestamped.method req =? "GET")%string; [discriminate |].
      destruct (Timestamped.method req =? "POST")%string; [| discriminate].
      unfold Eff.bind, Eff.lift, Eff.read, Eff.push, Eff.ret.
      destruct (get _ "description"); [| discriminate].
      destruct (get _ "amount"); [| discriminate].
      destruct (get _ "date"); [| discriminate].
      destruct (negb _ || negb _); discriminate.
Qed.

Lemma preflight_is_answered_empty_witness :
  Api.handler Json.parse (Samples.api "OPTIONS" ["{oops"]) Seeded.expenses
  = (Seeded.expenses, Seeded.sendResponse 204 Seeded.PNull)
  /\ Api.method (Samples.api "OPTIONS" []) = "OPTIONS"
  /\ Timestamped.handler (Samples.timestamped "OPTIONS" VNull)
                         [Samples.coffee_stamped]
     = ([Samples.coffee_stamped],
        Normal {| Timestamped.statusCode := 200;
                  Timestamped.sent := Timestamped.PEnd |})
  /\ Timestamped.method (Samples.timestamped "OPTIONS" VUndefined) = "OPTIONS".
Proof.
  destruct preflight_is_answered_empty as [A T].
  repeat apply conj.
  - exact (proj1 (A Json.parse (Samples.api "OPTIONS" ["{oops"])
                    Seeded.expenses) eq_refl).
  - exact (proj2 (A Json.parse (Samples.api "OPTIONS" []) Seeded.expenses)
                 eq_refl).
  - exact (proj1 (T (Samples.timestamped "OPTIONS" VNull)
                    [Samples.coffee_stamped]) eq_refl).
  - exact (proj2 (T (Samples.timestamped "OPTIONS" VUndefined) []) 200
                 eq_refl).
Defined.
